(** * oscrypto, OS X backend: public_key.py

    A shallow embedding of [oscrypto/_osx/public_key.py]: the key and
    certificate handles, the loaders and the sign / verify / encrypt /
    decrypt pipelines built on the Security framework.

    Python objects live in a heap, so that a handle reached through two
    references is one object.  Every call into the Security framework or
    CoreFoundation is appended to a trace; what the framework answers is
    given by an oracle over the number of calls made so far and the call,
    over which every theorem quantifies. *)

From Stdlib Require Import ZArith String.
From stdpp Require Import base gmap strings list pretty.

Open Scope string_scope.

(** ** Values *)

Definition bytes := list Byte.byte.

(** A CoreFoundation / Security reference; a Python variable that holds one
    is [option ref], [None] standing for both [None] and a NULL pointer
    (both are falsy). *)
Definition ref := nat.
Definition addr := nat.

(** The constants of the [Security] and [CoreFoundation] modules that the
    file names.  The modules themselves are bindings outside this file; the
    constants are opaque, pairwise distinct, non-NULL pointers. *)
Inductive sec_const :=
| kSecDigestMD5 | kSecDigestSHA1 | kSecDigestSHA2
| kSecDigestTypeAttribute | kSecDigestLengthAttribute
| kSecPaddingKey | kSecPaddingPKCS1Key | kSecPaddingOAEPKey | kSecPaddingNoneKey
| kSecTransformInputAttributeName
| kSecAttrKeyType | kSecAttrKeyClass | kSecAttrCanSign | kSecAttrCanVerify
| kSecAttrKeyTypeDSA | kSecAttrKeyTypeECDSA | kSecAttrKeyTypeRSA
| kSecAttrKeyClassPublic | kSecAttrKeyClassPrivate
| kCFBooleanTrue | kCFAllocatorDefault | kSecPaddingPKCS1.

#[global] Instance sec_const_eq_dec : EqDecision sec_const.
Proof. solve_decision. Defined.

(** The structured objects of asn1crypto, as far as this file reads them. *)
Inductive asn1_class := PublicKeyInfo | PrivateKeyInfo.

#[global] Instance asn1_class_eq_dec : EqDecision asn1_class.
Proof. solve_decision. Defined.

Record KeyInfo := {
  key_class : asn1_class;
  algorithm : string;
  bit_size : Z;
  byte_size : Z;
  hash_algo : option string;
  (* [curve] is the pair (curve_type, details); details is a name for a
     named curve and is not looked at otherwise *)
  curve : string * option string;
  dump : bytes;
  unwrap_dump : bytes
}.

Record CertInfo := {
  cert_dump : bytes;
  subject_public_key_info : KeyInfo
}.

(** The handle classes.  [PublicKey] is a subclass of [PrivateKey]. *)
Inductive obj :=
| PrivateKey (sec_key_ref : option ref) (asn1 : KeyInfo)
| PublicKey (sec_key_ref : option ref) (asn1 : KeyInfo)
| Certificate (sec_certificate_ref : option ref) (asn1 : CertInfo)
              (_public_key : option addr).

(** What a caller can pass where the code tests the argument's type. *)
Inductive pyval :=
| PyNone
| PyBytes (b : bytes)
| PyStr (s : string)
| PyInt (n : Z)
| PyKeyInfo (k : KeyInfo)
| PyCertInfo (c : CertInfo)
| PyObj (a : addr).

Inductive exn :=
| ValueError (msg : string)
| OSError
| SignatureError (msg : string)
| PrivateKeyError (msg : string)
| AttributeError
| UnboundLocalError (name : string)
| KeyError (key : string).

Inductive result (A : Type) :=
| Ok (a : A)
| Raise (e : exn).
Arguments Ok {A} a.
Arguments Raise {A} e.

(** ** Native calls *)

Inductive cf_value :=
| VConst (c : sec_const)
| VRef (r : option ref).

Inductive call :=
| cf_data_from_bytes (b : bytes)
| cf_number_from_integer (n : Z)
| cf_dictionary_from_pairs (pairs : list (sec_const * sec_const))
| cf_data_to_bytes (r : option ref)
| CFBooleanGetValue (r : option ref)
| CFRelease (r : ref)
| SecCertificateCreateWithData (alloc : sec_const) (data : option ref)
| SecCertificateCopyPublicKey (cert : option ref)
| SecKeyCreateFromData (dict source : option ref)
| SecKeyEncrypt (key : option ref) (padding : sec_const) (data : bytes) (buflen : Z)
| SecKeyDecrypt (key : option ref) (padding : sec_const) (data : bytes) (buflen : Z)
| SecEncryptTransformCreate (key : option ref)
| SecDecryptTransformCreate (key : option ref)
| SecSignTransformCreate (key : option ref)
| SecVerifyTransformCreate (key signature : option ref)
| SecTransformSetAttribute (transform : option ref) (name : sec_const) (value : cf_value)
| SecTransformExecute (transform : option ref).

(** Calls that hand a new reference to the caller when they succeed. *)
Definition creates (c : call) : bool :=
  match c with
  | cf_data_from_bytes _ | cf_number_from_integer _ | cf_dictionary_from_pairs _
  | SecCertificateCreateWithData _ _ | SecCertificateCopyPublicKey _
  | SecKeyCreateFromData _ _
  | SecEncryptTransformCreate _ | SecDecryptTransformCreate _
  | SecSignTransformCreate _ | SecVerifyTransformCreate _ _
  | SecTransformExecute _ => true
  | _ => false
  end.

(** What the framework answers to a call: whether it succeeded, and the
    bytes or the boolean a reading call returns. *)
Record response := { ok : bool; out_bytes : bytes; out_bool : bool }.

(** A call as it happened: the call, the framework's answer and the
    reference handed back. *)
Record event := Ev { ev_call : call; ev_resp : response; ev_ret : option ref }.

(** ** State *)

(** The local variables of the functions that own native objects.  One
    record serves all of them; a function touches only its own names. *)
Record frame := {
  cf_signature : option ref;
  cf_data : option ref;
  cf_hash_length : option ref;
  sec_transform : option ref;
  cf_source : option ref;
  cf_dict : option ref;
  cf_output : option ref;
  error_pointer : bool
}.

Definition frame0 : frame :=
  {| cf_signature := None; cf_data := None; cf_hash_length := None;
     sec_transform := None; cf_source := None; cf_dict := None;
     cf_output := None; error_pointer := false |}.

(** [clock] counts the native calls made so far; a reference made by a
    call is named after the tick of that call, so it is new. *)
Record world := {
  heap : gmap addr obj;
  next_addr : addr;
  trace : list event;
  clock : nat
}.

(** The reference a call hands back: the tick of the call when it made an
    object, NULL otherwise. *)
Definition fresh (made : bool) (n : nat) : option ref :=
  if made then Some n else None.
Arguments fresh !made n /.

(** Truth value of a variable that holds a reference or an object. *)
Definition truthy {A} (o : option A) : bool :=
  match o with
  | Some _ => true
  | None => false
  end.

(** ** The monad: state and exceptions *)

Definition M (A : Type) : Type := frame -> world -> result A * frame * world.

Definition ret {A} (a : A) : M A := fun l w => (Ok a, l, w).
Definition raise {A} (e : exn) : M A := fun l w => (Raise e, l, w).
Definition bind {A B} (m : M A) (k : A -> M B) : M B :=
  fun l w =>
    match m l w with
    | (Ok a, l', w') => k a l' w'
    | (Raise e, l', w') => (Raise e, l', w')
    end.

Declare Scope py_scope.
Delimit Scope py_scope with py.
Notation "x <~ m ;; k" := (bind m (fun x => k))
  (at level 100, m at next level, right associativity) : py_scope.
Notation "m ;;; k" := (bind m (fun _ => k))
  (at level 100, right associativity) : py_scope.
Open Scope py_scope.

(** [if c: m] *)
Definition when (c : bool) (m : M unit) : M unit := if c then m else ret tt.

(** [try: body finally: fin] : [fin] runs on every exit of [body]; an
    exception of [fin] replaces the outcome of [body]. *)
Definition try_finally {A} (body : M A) (fin : M unit) : M A :=
  fun l w =>
    match body l w with
    | (r, l1, w1) =>
        match fin l1 w1 with
        | (Ok _, l2, w2) => (r, l2, w2)
        | (Raise e, l2, w2) => (Raise e, l2, w2)
        end
    end.

(** A function call: the callee runs on fresh locals, the caller's are
    untouched. *)
Definition fn {A} (body : M A) : M A :=
  fun l w => match body frame0 w with (r, _, w') => (r, l, w') end.

Definition get_locals : M frame := fun l w => (Ok l, l, w).
Definition set_locals (f : frame -> frame) : M unit := fun l w => (Ok tt, f l, w).
Definition get_heap : M (gmap addr obj) := fun l w => (Ok (heap w), l, w).

Definition set_cf_signature v l := {| cf_signature := v; cf_data := cf_data l; cf_hash_length := cf_hash_length l; sec_transform := sec_transform l; cf_source := cf_source l; cf_dict := cf_dict l; cf_output := cf_output l; error_pointer := error_pointer l |}.
Definition set_cf_data v l := {| cf_signature := cf_signature l; cf_data := v; cf_hash_length := cf_hash_length l; sec_transform := sec_transform l; cf_source := cf_source l; cf_dict := cf_dict l; cf_output := cf_output l; error_pointer := error_pointer l |}.
Definition set_cf_hash_length v l := {| cf_signature := cf_signature l; cf_data := cf_data l; cf_hash_length := v; sec_transform := sec_transform l; cf_source := cf_source l; cf_dict := cf_dict l; cf_output := cf_output l; error_pointer := error_pointer l |}.
Definition set_sec_transform v l := {| cf_signature := cf_signature l; cf_data := cf_data l; cf_hash_length := cf_hash_length l; sec_transform := v; cf_source := cf_source l; cf_dict := cf_dict l; cf_output := cf_output l; error_pointer := error_pointer l |}.
Definition set_cf_source v l := {| cf_signature := cf_signature l; cf_data := cf_data l; cf_hash_length := cf_hash_length l; sec_transform := sec_transform l; cf_source := v; cf_dict := cf_dict l; cf_output := cf_output l; error_pointer := error_pointer l |}.
Definition set_cf_dict v l := {| cf_signature := cf_signature l; cf_data := cf_data l; cf_hash_length := cf_hash_length l; sec_transform := sec_transform l; cf_source := cf_source l; cf_dict := v; cf_output := cf_output l; error_pointer := error_pointer l |}.
Definition set_error_pointer v l := {| cf_signature := cf_signature l; cf_data := cf_data l; cf_hash_length := cf_hash_length l; sec_transform := sec_transform l; cf_source := cf_source l; cf_dict := cf_dict l; cf_output := cf_output l; error_pointer := v |}.

Definition log (e : event) (w : world) : world :=
  {| heap := heap w; next_addr := next_addr w;
     trace := trace w ++ [e]; clock := clock w |}.
Definition tick (w : world) : world :=
  {| heap := heap w; next_addr := next_addr w;
     trace := trace w; clock := S (clock w) |}.
Definition store (a : addr) (o : obj) (w : world) : world :=
  {| heap := <[a := o]> (heap w); next_addr := next_addr w;
     trace := trace w; clock := clock w |}.
Definition alloc (o : obj) (w : world) : world :=
  {| heap := <[next_addr w := o]> (heap w); next_addr := S (next_addr w);
     trace := trace w; clock := clock w |}.

(** ** Tables of the module *)

(** [{'md5', 'sha1', 'sha224', 'sha256', 'sha384', 'sha512'}] *)
Definition hash_names : gset string :=
  {[ "md5"; "sha1"; "sha224"; "sha256"; "sha384"; "sha512" ]}.

(** The [hash_constant] dictionary of [_sign] and [_verify]. *)
Definition hash_constants : gmap string sec_const :=
  list_to_map [("md5", kSecDigestMD5); ("sha1", kSecDigestSHA1);
               ("sha224", kSecDigestSHA2); ("sha256", kSecDigestSHA2);
               ("sha384", kSecDigestSHA2); ("sha512", kSecDigestSHA2)].

(** [{'sha224', 'sha256', 'sha384', 'sha512'}] and the [hash_length]
    dictionary of [_sign] and [_verify] (bits). *)
Definition sha2_names : gset string :=
  {[ "sha224"; "sha256"; "sha384"; "sha512" ]}.

Definition hash_bit_lengths : gmap string Z :=
  list_to_map [("sha224", 224%Z); ("sha256", 256%Z);
               ("sha384", 384%Z); ("sha512", 512%Z)].

(** The [hash_length] dictionary of [rsa_pss_sign] and [rsa_pss_verify]
    (bytes), read with [.get(hash_algorithm, 0)]. *)
Definition pss_hash_lengths : gmap string Z :=
  list_to_map [("sha1", 20%Z); ("sha224", 28%Z); ("sha256", 32%Z);
               ("sha384", 48%Z); ("sha512", 64%Z)].

Definition pss_hash_length (hash_algorithm : string) : Z :=
  default 0%Z (pss_hash_lengths !! hash_algorithm).

(** [{'secp256r1', 'secp384r1', 'secp521r1'}] *)
Definition ec_curves : gset string :=
  {[ "secp256r1"; "secp384r1"; "secp521r1" ]}.

(** The [key_type] dictionary of [_load_key]. *)
Definition key_types : gmap string sec_const :=
  list_to_map [("dsa", kSecAttrKeyTypeDSA); ("ec", kSecAttrKeyTypeECDSA);
               ("rsa", kSecAttrKeyTypeRSA)].

(** A name between double quotes, as the messages print it. *)
Definition quoted (s : string) : string :=
  let q := String (Ascii.Ascii false true false false false true false false) EmptyString in
  q ++ s ++ q.

(** [str(n)] for an integer. *)
Definition str_of_int (n : Z) : string := pretty n.

(** ** Heap access *)

Definition load (a : addr) : M obj :=
  fun l w =>
    match heap w !! a with
    | Some o => (Ok o, l, w)
    | None => (Raise AttributeError, l, w)
    end.

Definition update (a : addr) (o : obj) : M unit :=
  fun l w => (Ok tt, l, store a o w).

Definition new_obj (o : obj) : M addr :=
  fun l w => (Ok (next_addr w), l, alloc o w).

(** [v.__class__.__name__] *)
Definition class_name (h : gmap addr obj) (v : pyval) : string :=
  match v with
  | PyNone => "NoneType"
  | PyBytes _ => "bytes"
  | PyStr _ => "str"
  | PyInt _ => "int"
  | PyKeyInfo k =>
      match key_class k with
      | PublicKeyInfo => "PublicKeyInfo"
      | PrivateKeyInfo => "PrivateKeyInfo"
      end
  | PyCertInfo _ => "Certificate"
  | PyObj a =>
      match h !! a with
      | Some (PrivateKey _ _) => "PrivateKey"
      | Some (PublicKey _ _) => "PublicKey"
      | Some (Certificate _ _ _) => "Certificate"
      | None => "object"
      end
  end.

(** [isinstance(v, PrivateKey)]: true of a [PublicKey] too, its subclass. *)
Definition isinstance_PrivateKey (h : gmap addr obj) (v : pyval) : bool :=
  match v with
  | PyObj a =>
      match h !! a with
      | Some (PrivateKey _ _) | Some (PublicKey _ _) => true
      | _ => false
      end
  | _ => false
  end.

(** [isinstance(v, (Certificate, PublicKey))] *)
Definition isinstance_Certificate_PublicKey (h : gmap addr obj) (v : pyval) : bool :=
  match v with
  | PyObj a =>
      match h !! a with
      | Some (Certificate _ _ _) | Some (PublicKey _ _) => true
      | _ => false
      end
  | _ => false
  end.

(** [isinstance(v, keys.PublicKeyInfo)] / [isinstance(v, keys.PrivateKeyInfo)],
    with the structure when it holds. *)
Definition as_key_info (cls : asn1_class) (v : pyval) : option KeyInfo :=
  match v with
  | PyKeyInfo k => if bool_decide (key_class k = cls) then Some k else None
  | _ => None
  end.

(** [if not isinstance(v, byte_cls): raise ValueError(msg % class name)] *)
Definition expect_bytes (msg : string) (v : pyval) : M bytes :=
  match v with
  | PyBytes b => ret b
  | _ =>
      h <~ get_heap ;;
      raise (ValueError (msg ++ class_name h v))
  end.

Definition lift {A} (r : result A) : M A :=
  match r with
  | Ok a => ret a
  | Raise e => raise e
  end.

(** ** Reading a trace *)

(** The reference passed to [CFRelease]. *)
Definition released_of (e : event) : option ref :=
  match ev_call e with CFRelease r => Some r | _ => None end.

(** The reference returned by a call that builds a transform, wrapped
    bytes, a wrapped number, and by [SecTransformExecute]. *)
Definition transform_of (e : event) : option ref :=
  match ev_call e with
  | SecEncryptTransformCreate _ | SecDecryptTransformCreate _
  | SecSignTransformCreate _ | SecVerifyTransformCreate _ _ => ev_ret e
  | _ => None
  end.

Definition data_of (e : event) : option ref :=
  match ev_call e with cf_data_from_bytes _ => ev_ret e | _ => None end.

Definition number_of (e : event) : option ref :=
  match ev_call e with cf_number_from_integer _ => ev_ret e | _ => None end.

Definition produced_of (e : event) : option ref :=
  match ev_call e with SecTransformExecute _ => ev_ret e | _ => None end.

(** An intermediate object built before the transform is executed. *)
Definition made_of (e : event) : option ref :=
  match ev_call e with
  | cf_data_from_bytes _ | cf_number_from_integer _
  | SecEncryptTransformCreate _ | SecDecryptTransformCreate _
  | SecSignTransformCreate _ | SecVerifyTransformCreate _ _ => ev_ret e
  | _ => None
  end.

(** Calls whose status or error reference the code checks. *)
Definition checked (c : call) : bool :=
  match c with
  | SecCertificateCopyPublicKey _ | SecKeyCreateFromData _ _
  | SecKeyEncrypt _ _ _ _ | SecKeyDecrypt _ _ _ _
  | SecEncryptTransformCreate _ | SecDecryptTransformCreate _
  | SecSignTransformCreate _ | SecVerifyTransformCreate _ _
  | SecTransformSetAttribute _ _ _ | SecTransformExecute _ => true
  | _ => false
  end.

(** A native-call failure: a checked call that did not succeed. *)
Definition failure_of (e : event) : option call :=
  if checked (ev_call e) && negb (ok (ev_resp e)) then Some (ev_call e) else None.

(** The boolean read off the result of a verify transform. *)
Definition verdict_of (e : event) : option bool :=
  match ev_call e with
  | CFBooleanGetValue _ => Some (out_bool (ev_resp e))
  | _ => None
  end.

(** The bytes read off the result of a transform. *)
Definition output_of (e : event) : option bytes :=
  match ev_call e with
  | cf_data_to_bytes _ => Some (out_bytes (ev_resp e))
  | _ => None
  end.

(** An attribute set on a transform. *)
Definition attribute_of (e : event) : option (sec_const * cf_value) :=
  match ev_call e with
  | SecTransformSetAttribute _ name v => Some (name, v)
  | _ => None
  end.

(** A number wrapped for the framework, with the reference handed back. *)
Definition wrapped_number_of (e : event) : option (Z * option ref) :=
  match ev_call e with
  | cf_number_from_integer n => Some (n, ev_ret e)
  | _ => None
  end.

(** A transform that was executed. *)
Definition executed_of (e : event) : option (option ref) :=
  match ev_call e with
  | SecTransformExecute t => Some t
  | _ => None
  end.

Definition picked {A} (o : option A) : list A :=
  match o with
  | Some a => [a]
  | None => []
  end.
Arguments picked {A} !o /.

(** What [g] picks out of a stretch of trace, in the order of the calls. *)
Fixpoint collect {A} (g : event -> option A) (tr : list event) : list A :=
  match tr with
  | [] => []
  | e :: tr => picked (g e) ++ collect g tr
  end.

Abbreviation released := (collect released_of).
Abbreviation transforms := (collect transform_of).
Abbreviation datas := (collect data_of).
Abbreviation numbers := (collect number_of).
Abbreviation produced := (collect produced_of).
Abbreviation made := (collect made_of).
Abbreviation failures := (collect failure_of).
Abbreviation verdicts := (collect verdict_of).
Abbreviation outputs := (collect output_of).
Abbreviation attributes := (collect attribute_of).
Abbreviation wrapped_numbers := (collect wrapped_number_of).
Abbreviation executed := (collect executed_of).

Section Embedding.

(** The Security framework and CoreFoundation: the answer to the n-th
    call. *)
Variable oracle : nat -> call -> response.

(** [oscrypto._pkcs1]: the PSS padding primitive. *)
Variable add_pss_padding : string -> Z -> Z -> bytes -> result bytes.
Variable verify_pss_padding : string -> Z -> Z -> bytes -> bytes -> result bool.

(** [oscrypto.keys]: the parsers.  [parse_pkcs12] gives the three sequences
    the caller indexes with [[0]]; an absent key or certificate is an empty
    one. *)
Variable parse_certificate : bytes -> result CertInfo.
Variable parse_private : bytes -> option bytes -> result KeyInfo.
Variable parse_public : bytes -> result KeyInfo.
Variable parse_pkcs12 :
  bytes -> option bytes -> result (list KeyInfo * list CertInfo * list CertInfo).

(** [open(source, 'rb').read()], [s.encode('utf-8')] and [repr(s)]. *)
Variable read_file : string -> result bytes.
Variable encode_utf8 : string -> bytes.
Variable repr : string -> string.

(** One call into the framework: it is logged, and a creating call that
    succeeds returns a fresh reference; one that fails returns NULL. *)
Definition native (c : call) : M (response * option ref) :=
  fun l w =>
    let r := oracle (clock w) c in
    let p := fresh (creates c && ok r) (clock w) in
    (Ok (r, p), l, tick (log (Ev c r p) w)).

(** A call without an error pointer, for its reference. *)
Definition native_ref (c : call) : M (option ref) :=
  p <~ native c ;; ret (snd p).

(** A call given [error_pointer]: a failure is written to it. *)
Definition native_err (c : call) : M (option ref) :=
  p <~ native c ;;
  when (negb (ok (fst p))) (set_locals (set_error_pointer true)) ;;;
  ret (snd p).

(** [handle_cf_error(error_pointer)] *)
Definition handle_cf_error : M unit :=
  l <~ get_locals ;;
  if error_pointer l then raise OSError else ret tt.

(** [handle_sec_error(res)] *)
Definition handle_sec_error (res : response) : M unit :=
  if ok res then ret tt else raise OSError.

(** [if r: CoreFoundation.CFRelease(r)] *)
Definition release_if (r : option ref) : M unit :=
  match r with
  | Some p => _ <~ native (CFRelease p) ;; ret tt
  | None => ret tt
  end.

(** ** The handle classes *)

(** [PrivateKey.__del__], inherited by [PublicKey]. *)
Definition PrivateKey__del__ (self : addr) : M unit :=
  o <~ load self ;;
  match o with
  | PrivateKey (Some r) k =>
      _ <~ native (CFRelease r) ;; update self (PrivateKey None k)
  | PublicKey (Some r) k =>
      _ <~ native (CFRelease r) ;; update self (PublicKey None k)
  | PrivateKey None _ | PublicKey None _ => ret tt
  | Certificate _ _ _ => raise AttributeError
  end.

(** The [Certificate.public_key] property. *)
Definition Certificate_public_key (self : addr) : M (option addr) :=
  o <~ load self ;;
  match o with
  | Certificate cert_ref c pk =>
      if negb (truthy pk) && truthy cert_ref then
        p <~ native (SecCertificateCopyPublicKey cert_ref) ;;
        handle_sec_error (fst p) ;;;
        k <~ new_obj (PublicKey (snd p) (subject_public_key_info c)) ;;
        update self (Certificate cert_ref c (Some k)) ;;;
        ret (Some k)
      else ret pk
  | _ => raise AttributeError
  end.

(** [Certificate.__del__] *)
Definition Certificate__del__ (self : addr) : M unit :=
  o <~ load self ;;
  match o with
  | Certificate cert_ref c pk =>
      match pk with
      | Some k =>
          PrivateKey__del__ k ;;;
          update self (Certificate cert_ref c None)
      | None => ret tt
      end ;;;
      match cert_ref with
      | Some r =>
          _ <~ native (CFRelease r) ;;
          update self (Certificate None c None)
      | None => ret tt
      end
  | _ => raise AttributeError
  end.

(** [del handle]: the teardown of whichever class the object has. *)
Definition release_handle (self : addr) : M unit :=
  o <~ load self ;;
  match o with
  | Certificate _ _ _ => Certificate__del__ self
  | _ => PrivateKey__del__ self
  end.

(** An attribute of a key, read off a handle: a field of a [PrivateKey]
    or [PublicKey], and on a [Certificate] the property that goes through
    [self.public_key]. *)
Definition key_attribute {A} (f : option ref -> KeyInfo -> A) (v : pyval) : M A :=
  match v with
  | PyObj a =>
      o <~ load a ;;
      match o with
      | PrivateKey r k | PublicKey r k => ret (f r k)
      | Certificate _ _ _ =>
          pk <~ Certificate_public_key a ;;
          match pk with
          | Some ka =>
              o' <~ load ka ;;
              match o' with
              | PrivateKey r k | PublicKey r k => ret (f r k)
              | Certificate _ _ _ => raise AttributeError
              end
          | None => raise AttributeError
          end
      end
  | _ => raise AttributeError
  end.

Definition get_algo : pyval -> M string := key_attribute (fun _ k => algorithm k).
Definition get_bit_size : pyval -> M Z := key_attribute (fun _ k => bit_size k).
Definition get_byte_size : pyval -> M Z := key_attribute (fun _ k => byte_size k).
Definition get_sec_key_ref : pyval -> M (option ref) := key_attribute (fun r _ => r).

(** ** Loading *)

(** [_load_x509] *)
Definition _load_x509 (certificate : CertInfo) : M addr :=
  fn (
    let source := cert_dump certificate in
    try_finally
      (r <~ native_ref (cf_data_from_bytes source) ;;
       set_locals (set_cf_source r) ;;;
       l <~ get_locals ;;
       sec_key_ref <~ native_ref
         (SecCertificateCreateWithData kCFAllocatorDefault (cf_source l)) ;;
       new_obj (Certificate sec_key_ref certificate None))
      (l <~ get_locals ;;
       release_if (cf_source l))).

(** [load_certificate] *)
Definition load_certificate (source : pyval) : M addr :=
  match source with
  | PyCertInfo certificate => _load_x509 certificate
  | PyBytes b =>
      certificate <~ lift (parse_certificate b) ;;
      _load_x509 certificate
  | PyStr path =>
      b <~ lift (read_file path) ;;
      certificate <~ lift (parse_certificate b) ;;
      _load_x509 certificate
  | _ =>
      h <~ get_heap ;;
      raise (ValueError
        ("source must be a byte string, unicode string or asn1crypto.x509.Certificate object, not "
         ++ class_name h source))
  end.

(** The checks at the head of [_load_key]. *)
Definition check_key (key_object : KeyInfo) : M unit :=
  if bool_decide (algorithm key_object = "ec") then
    let curve_type := fst (curve key_object) in
    let details := snd (curve key_object) in
    when (bool_decide (curve_type <> "named"))
      (raise (PrivateKeyError "OS X only supports EC keys using named curves")) ;;;
    when (negb (from_option (fun d => bool_decide (d ∈ ec_curves)) false details))
      (raise (PrivateKeyError
         "OS X only supports EC keys using the named curves secp256r1, secp384r1 and secp521r1"))
  else
    when (bool_decide (algorithm key_object = "dsa")
          && bool_decide (hash_algo key_object = Some "sha2"))
      (raise (PrivateKeyError
         ("OS X only supports DSA keys based on SHA1 (2048 bits or less) - this key is based on SHA2 and is "
          ++ str_of_int (bit_size key_object) ++ " bits"))).

(** [_load_key] *)
Definition _load_key (key_object : KeyInfo) : M addr :=
  fn (
    check_key key_object ;;;
    let source :=
      if bool_decide (key_class key_object = PublicKeyInfo)
      then dump key_object else unwrap_dump key_object in
    let key_class :=
      if bool_decide (key_class key_object = PublicKeyInfo)
      then kSecAttrKeyClassPublic else kSecAttrKeyClassPrivate in
    try_finally
      (r <~ native_ref (cf_data_from_bytes source) ;;
       set_locals (set_cf_source r) ;;;
       key_type <~
         match key_types !! algorithm key_object with
         | Some t => ret t
         | None => raise (KeyError (algorithm key_object))
         end ;;
       d <~ native_ref (cf_dictionary_from_pairs
              [(kSecAttrKeyType, key_type);
               (kSecAttrKeyClass, key_class);
               (kSecAttrCanSign, kCFBooleanTrue);
               (kSecAttrCanVerify, kCFBooleanTrue)]) ;;
       set_locals (set_cf_dict d) ;;;
       set_locals (set_error_pointer false) ;;;
       l <~ get_locals ;;
       sec_key_ref <~ native_err (SecKeyCreateFromData (cf_dict l) (cf_source l)) ;;
       handle_cf_error ;;;
       if bool_decide (key_class = kSecAttrKeyClassPublic)
       then new_obj (PublicKey sec_key_ref key_object)
       else new_obj (PrivateKey sec_key_ref key_object))
      (l <~ get_locals ;;
       release_if (cf_source l) ;;;
       release_if (cf_dict l) ;;;
       release_if (cf_output l))).

(** The password normalisation shared by [load_private_key] and
    [load_pkcs12]. *)
Definition check_password (password : pyval) : M (option bytes) :=
  match password with
  | PyNone => ret None
  | PyStr s => ret (Some (encode_utf8 s))
  | PyBytes b => ret (Some b)
  | _ =>
      h <~ get_heap ;;
      raise (ValueError ("password must be a byte string, not " ++ class_name h password))
  end.

(** [load_private_key] *)
Definition load_private_key (source password : pyval) : M addr :=
  private_object <~
    match as_key_info PrivateKeyInfo source with
    | Some k => ret k
    | None =>
        password <~ check_password password ;;
        source <~
          match source with
          | PyStr path => lift (read_file path)
          | PyBytes b => ret b
          | _ =>
              h <~ get_heap ;;
              raise (ValueError
                ("source must be a byte string, unicode string or asn1crypto.keys.PrivateKeyInfo object, not "
                 ++ class_name h source))
          end ;;
        lift (parse_private source password)
    end ;;
  _load_key private_object.

(** [load_public_key].  In the last branch the message is built from
    [public_key], which no branch has bound by then. *)
Definition load_public_key (source : pyval) : M addr :=
  public_key <~
    match as_key_info PublicKeyInfo source with
    | Some k => ret k
    | None =>
        match source with
        | PyBytes b => lift (parse_public b)
        | PyStr path =>
            b <~ lift (read_file path) ;;
            lift (parse_public b)
        | _ => raise (UnboundLocalError "public_key")
        end
    end ;;
  _load_key public_key.

(** [[_load_x509(info[0]) for info in extra_certs_info]] *)
Fixpoint load_each (infos : list CertInfo) : M (list addr) :=
  match infos with
  | [] => ret []
  | info :: rest =>
      c <~ _load_x509 info ;;
      cs <~ load_each rest ;;
      ret (c :: cs)
  end.

(** [load_pkcs12] *)
Definition load_pkcs12 (source password : pyval)
  : M (option addr * option addr * list addr) :=
  password <~ check_password password ;;
  source <~
    match source with
    | PyStr path => lift (read_file path)
    | PyBytes b => ret b
    | _ =>
        h <~ get_heap ;;
        raise (ValueError
          ("source must be a byte string or a unicode string, not "
           ++ class_name h source))
    end ;;
  parsed <~ lift (parse_pkcs12 source password) ;;
  let key_info := fst (fst parsed) in
  let cert_info := snd (fst parsed) in
  let extra_certs_info := snd parsed in
  key <~
    match key_info with
    | k :: _ => a <~ _load_key k ;; ret (Some a)
    | [] => ret None
    end ;;
  cert <~
    match cert_info with
    | c :: _ => a <~ _load_x509 c ;; ret (Some a)
    | [] => ret None
    end ;;
  extra_certs <~ load_each extra_certs_info ;;
  ret (key, cert, extra_certs).

(** ** Encryption and decryption *)

(** [rsa_pkcs1v15_encrypt] *)
Definition rsa_pkcs1v15_encrypt (certificate_or_public_key data : pyval) : M bytes :=
  h <~ get_heap ;;
  when (negb (isinstance_Certificate_PublicKey h certificate_or_public_key))
    (raise (ValueError
       ("certificate_or_public_key must be an instance of the Certificate or PublicKey class, not "
        ++ class_name h certificate_or_public_key))) ;;;
  data <~ expect_bytes "data must be a byte string, not " data ;;
  key_length <~ get_byte_size certificate_or_public_key ;;
  key <~ get_sec_key_ref certificate_or_public_key ;;
  p <~ native (SecKeyEncrypt key kSecPaddingPKCS1 data key_length) ;;
  handle_sec_error (fst p) ;;;
  ret (out_bytes (fst p)).

(** [rsa_pkcs1v15_decrypt] *)
Definition rsa_pkcs1v15_decrypt (private_key ciphertext : pyval) : M bytes :=
  h <~ get_heap ;;
  when (negb (isinstance_PrivateKey h private_key))
    (raise (ValueError
       ("private_key must an instance of the PrivateKey class, not "
        ++ class_name h private_key))) ;;;
  ciphertext <~ expect_bytes "data must be a byte string, not " ciphertext ;;
  key_length <~ get_byte_size private_key ;;
  key <~ get_sec_key_ref private_key ;;
  p <~ native (SecKeyDecrypt key kSecPaddingPKCS1 ciphertext key_length) ;;
  handle_sec_error (fst p) ;;;
  ret (out_bytes (fst p)).

(** The [finally] block of [_encrypt] and [_decrypt]. *)
Definition crypt_finally : M unit :=
  l <~ get_locals ;;
  release_if (cf_data l) ;;;
  release_if (sec_transform l).

(** [_encrypt] *)
Definition _encrypt (certificate_or_public_key data : pyval)
    (padding : option sec_const) : M bytes :=
  fn (
    h <~ get_heap ;;
    when (negb (isinstance_Certificate_PublicKey h certificate_or_public_key))
      (raise (ValueError
         ("certificate_or_public_key must be an instance of the Certificate or PublicKey class, not "
          ++ class_name h certificate_or_public_key))) ;;;
    data <~ expect_bytes "data must be a byte string, not " data ;;
    when (negb (truthy padding))
      (raise (ValueError "padding must be specified")) ;;;
    try_finally
      (r <~ native_ref (cf_data_from_bytes data) ;;
       set_locals (set_cf_data r) ;;;
       set_locals (set_error_pointer false) ;;;
       key <~ get_sec_key_ref certificate_or_public_key ;;
       t <~ native_err (SecEncryptTransformCreate key) ;;
       set_locals (set_sec_transform t) ;;;
       handle_cf_error ;;;
       match padding with
       | Some p =>
           native_err (SecTransformSetAttribute t kSecPaddingKey (VConst p)) ;;;
           handle_cf_error
       | None => ret tt
       end ;;;
       native_err (SecTransformSetAttribute t kSecTransformInputAttributeName (VRef r)) ;;;
       handle_cf_error ;;;
       ciphertext <~ native_err (SecTransformExecute t) ;;
       handle_cf_error ;;;
       out <~ native (cf_data_to_bytes ciphertext) ;;
       ret (out_bytes (fst out)))
      crypt_finally).

(** [_decrypt] *)
Definition _decrypt (private_key ciphertext : pyval)
    (padding : option sec_const) : M bytes :=
  fn (
    h <~ get_heap ;;
    when (negb (isinstance_PrivateKey h private_key))
      (raise (ValueError
         ("private_key must be an instance of the PrivateKey class, not "
          ++ class_name h private_key))) ;;;
    ciphertext <~ expect_bytes "ciphertext must be a byte string, not " ciphertext ;;
    when (negb (truthy padding))
      (raise (ValueError "padding must be specified")) ;;;
    try_finally
      (r <~ native_ref (cf_data_from_bytes ciphertext) ;;
       set_locals (set_cf_data r) ;;;
       set_locals (set_error_pointer false) ;;;
       key <~ get_sec_key_ref private_key ;;
       t <~ native_err (SecDecryptTransformCreate key) ;;
       set_locals (set_sec_transform t) ;;;
       handle_cf_error ;;;
       native_err (SecTransformSetAttribute t kSecPaddingKey
                     (from_option VConst (VRef None) padding)) ;;;
       handle_cf_error ;;;
       native_err (SecTransformSetAttribute t kSecTransformInputAttributeName (VRef r)) ;;;
       handle_cf_error ;;;
       plaintext <~ native_err (SecTransformExecute t) ;;
       handle_cf_error ;;;
       out <~ native (cf_data_to_bytes plaintext) ;;
       ret (out_bytes (fst out)))
      crypt_finally).



(** ** Signing and verification *)

(** The digest attributes that [_sign] and [_verify] set on the transform:
    the digest type, and for the SHA-2 names the digest length. *)
Definition set_digest (hash_algorithm : string) : M unit :=
  hash_constant <~
    match hash_constants !! hash_algorithm with
    | Some c => ret c
    | None => raise (KeyError hash_algorithm)
    end ;;
  l <~ get_locals ;;
  native_err (SecTransformSetAttribute (sec_transform l) kSecDigestTypeAttribute
                (VConst hash_constant)) ;;;
  handle_cf_error ;;;
  when (bool_decide (hash_algorithm ∈ sha2_names))
    (hash_length <~
       match hash_bit_lengths !! hash_algorithm with
       | Some n => ret n
       | None => raise (KeyError hash_algorithm)
       end ;;
     n <~ native_ref (cf_number_from_integer hash_length) ;;
     set_locals (set_cf_hash_length n) ;;;
     native_err (SecTransformSetAttribute (sec_transform l) kSecDigestLengthAttribute
                   (VRef n)) ;;;
     handle_cf_error).

(** [if key.algo == 'rsa']: the PKCS#1 padding attribute. *)
Definition set_rsa_padding (key : pyval) : M unit :=
  algo <~ get_algo key ;;
  l <~ get_locals ;;
  when (bool_decide (algo = "rsa"))
    (native_err (SecTransformSetAttribute (sec_transform l) kSecPaddingKey
                   (VConst kSecPaddingPKCS1Key)) ;;;
     handle_cf_error).

(** The input attribute: [cf_data] is made from the data and set. *)
Definition set_input (data : bytes) : M unit :=
  d <~ native_ref (cf_data_from_bytes data) ;;
  set_locals (set_cf_data d) ;;;
  l <~ get_locals ;;
  native_err (SecTransformSetAttribute (sec_transform l)
                kSecTransformInputAttributeName (VRef d)) ;;;
  handle_cf_error.

(** The [finally] block of [_sign] and [_verify]. *)
Definition sign_finally : M unit :=
  l <~ get_locals ;;
  release_if (sec_transform l) ;;;
  release_if (cf_signature l) ;;;
  release_if (cf_data l) ;;;
  release_if (cf_hash_length l).

(** The [try] block of [_verify]. *)
Definition _verify_try (certificate_or_public_key : pyval) (signature data : bytes)
    (hash_algorithm : string) : M unit :=
  set_locals (set_error_pointer false) ;;;
  s <~ native_ref (cf_data_from_bytes signature) ;;
  set_locals (set_cf_signature s) ;;;
  key <~ get_sec_key_ref certificate_or_public_key ;;
  t <~ native_err (SecVerifyTransformCreate key s) ;;
  set_locals (set_sec_transform t) ;;;
  handle_cf_error ;;;
  set_digest hash_algorithm ;;;
  set_rsa_padding certificate_or_public_key ;;;
  set_input data ;;;
  res <~ native_err (SecTransformExecute t) ;;
  handle_cf_error ;;;
  res <~ native (CFBooleanGetValue res) ;;
  when (negb (out_bool (fst res)))
    (raise (SignatureError "Signature is invalid")).

(** [_verify] *)
Definition _verify (certificate_or_public_key signature data : pyval)
    (hash_algorithm : string) : M unit :=
  fn (
    h <~ get_heap ;;
    when (negb (isinstance_Certificate_PublicKey h certificate_or_public_key))
      (raise (ValueError
         ("certificate_or_public_key must be an instance of the Certificate or PublicKey class, not "
          ++ class_name h certificate_or_public_key))) ;;;
    signature <~ expect_bytes "signature must be a byte string, not " signature ;;
    data <~ expect_bytes "data must be a byte string, not " data ;;
    when (negb (bool_decide (hash_algorithm ∈ hash_names)))
      (raise (ValueError
         ("hash_algorithm must be one of "
          ++ quoted "md5" ++ ", " ++ quoted "sha1" ++ ", " ++ quoted "sha224" ++ ", "
          ++ quoted "sha256" ++ ", " ++ quoted "sha384" ++ ", " ++ quoted "sha512"
          ++ ", not " ++ repr hash_algorithm))) ;;;
    try_finally
      (_verify_try certificate_or_public_key signature data hash_algorithm)
      sign_finally).

(** The [try] block of [_sign]. *)
Definition _sign_try (private_key : pyval) (data : bytes)
    (hash_algorithm : string) : M bytes :=
  set_locals (set_error_pointer false) ;;;
  key <~ get_sec_key_ref private_key ;;
  t <~ native_err (SecSignTransformCreate key) ;;
  set_locals (set_sec_transform t) ;;;
  handle_cf_error ;;;
  set_digest hash_algorithm ;;;
  set_rsa_padding private_key ;;;
  set_input data ;;;
  s <~ native_err (SecTransformExecute t) ;;
  set_locals (set_cf_signature s) ;;;
  handle_cf_error ;;;
  out <~ native (cf_data_to_bytes s) ;;
  ret (out_bytes (fst out)).

(** [_sign] *)
Definition _sign (private_key data : pyval) (hash_algorithm : string) : M bytes :=
  fn (
    h <~ get_heap ;;
    when (negb (isinstance_PrivateKey h private_key))
      (raise (ValueError
         ("private_key must be an instance of PrivateKey, not "
          ++ class_name h private_key))) ;;;
    data <~ expect_bytes "data must be a byte string, not " data ;;
    when (negb (bool_decide (hash_algorithm ∈ hash_names)))
      (raise (ValueError
         ("hash_algorithm must be one of "
          ++ quoted "md5" ++ ", " ++ quoted "sha1" ++ ", "
          ++ quoted "sha256" ++ ", " ++ quoted "sha384" ++ ", " ++ quoted "sha512"
          ++ ", not " ++ repr hash_algorithm))) ;;;
    try_finally
      (_sign_try private_key data hash_algorithm)
      sign_finally).

(** [if key.algo != name: raise ValueError(msg)] *)
Definition expect_algo (key : pyval) (name msg : string) : M unit :=
  algo <~ get_algo key ;;
  when (bool_decide (algo <> name)) (raise (ValueError msg)).

(** The entry points for verification. *)
Definition rsa_pkcs1v15_verify (certificate_or_public_key signature data : pyval)
    (hash_algorithm : string) : M unit :=
  expect_algo certificate_or_public_key "rsa" "The key specified is not an RSA public key" ;;;
  _verify certificate_or_public_key signature data hash_algorithm.

Definition rsa_pss_verify (certificate_or_public_key signature data : pyval)
    (hash_algorithm : string) : M unit :=
  h <~ get_heap ;;
  when (negb (isinstance_Certificate_PublicKey h certificate_or_public_key))
    (raise (ValueError
       ("certificate_or_public_key must be an instance of the Certificate or PublicKey class, not "
        ++ class_name h certificate_or_public_key))) ;;;
  data <~ expect_bytes "data must be a byte string, not " data ;;
  expect_algo certificate_or_public_key "rsa" "The key specified is not an RSA public key" ;;;
  let hash_length := pss_hash_length hash_algorithm in
  plaintext <~ _encrypt certificate_or_public_key signature (Some kSecPaddingNoneKey) ;;
  bits <~ get_bit_size certificate_or_public_key ;;
  valid <~ lift (verify_pss_padding hash_algorithm hash_length bits data plaintext) ;;
  when (negb valid) (raise (SignatureError "Signature is invalid")).

Definition dsa_verify (certificate_or_public_key signature data : pyval)
    (hash_algorithm : string) : M unit :=
  expect_algo certificate_or_public_key "dsa" "The key specified is not a DSA public key" ;;;
  _verify certificate_or_public_key signature data hash_algorithm.

Definition ecdsa_verify (certificate_or_public_key signature data : pyval)
    (hash_algorithm : string) : M unit :=
  expect_algo certificate_or_public_key "ec" "The key specified is not an EC public key" ;;;
  _verify certificate_or_public_key signature data hash_algorithm.

(** The entry points for signing. *)
Definition rsa_pkcs1v15_sign (private_key data : pyval) (hash_algorithm : string)
  : M bytes :=
  expect_algo private_key "rsa" "The key specified is not an RSA private key" ;;;
  _sign private_key data hash_algorithm.

Definition rsa_pss_sign (private_key data : pyval) (hash_algorithm : string)
  : M bytes :=
  h <~ get_heap ;;
  when (negb (isinstance_PrivateKey h private_key))
    (raise (ValueError
       ("private_key must be an instance of the PrivateKey class, not "
        ++ class_name h private_key))) ;;;
  data <~ expect_bytes "data must be a byte string, not " data ;;
  expect_algo private_key "rsa" "The key specified is not an RSA private key" ;;;
  let hash_length := pss_hash_length hash_algorithm in
  bits <~ get_bit_size private_key ;;
  encoded_data <~ lift (add_pss_padding hash_algorithm hash_length bits data) ;;
  _decrypt private_key (PyBytes encoded_data) (Some kSecPaddingNoneKey).

Definition dsa_sign (private_key data : pyval) (hash_algorithm : string)
  : M bytes :=
  expect_algo private_key "dsa" "The key specified is not a DSA private key" ;;;
  _sign private_key data hash_algorithm.

Definition ecdsa_sign (private_key data : pyval) (hash_algorithm : string)
  : M bytes :=
  expect_algo private_key "ec" "The key specified is not an EC private key" ;;;
  _sign private_key data hash_algorithm.

(** The calls of a cleanup block that releases [rs] in turn, from tick [n]. *)
Fixpoint release_events (n : nat) (rs : list ref) : list event :=
  match rs with
  | [] => []
  | r :: rs => Ev (CFRelease r) (oracle n (CFRelease r)) None :: release_events (S n) rs
  end.

(** What reading a key attribute off a handle can do: nothing, or the one
    call that derives a certificate's public key; only a failure of that
    call is reported as [OSError]. *)
Inductive key_run {A} (n : nat) : result A -> list event -> Prop :=
| key_read a : key_run n (Ok a) []
| key_missing : key_run n (Raise AttributeError) []
| key_derived a c :
    ok (oracle n (SecCertificateCopyPublicKey c)) = true ->
    key_run n (Ok a)
      [Ev (SecCertificateCopyPublicKey c) (oracle n (SecCertificateCopyPublicKey c)) (Some n)]
| key_derived_missing c :
    ok (oracle n (SecCertificateCopyPublicKey c)) = true ->
    key_run n (Raise AttributeError)
      [Ev (SecCertificateCopyPublicKey c) (oracle n (SecCertificateCopyPublicKey c)) (Some n)]
| key_failed c :
    ok (oracle n (SecCertificateCopyPublicKey c)) = false ->
    key_run n (Raise OSError)
      [Ev (SecCertificateCopyPublicKey c) (oracle n (SecCertificateCopyPublicKey c)) None].

(** * Statements *)

Open Scope list_scope.

(** [wp m Q l w]: [Q] holds of the outcome of [m] run from [l] and [w]. *)
Definition wp {A} (m : M A) (Q : result A -> frame -> world -> Prop)
    (l : frame) (w : world) : Prop :=
  match m l w with (r, l', w') => Q r l' w' end.

(** A chain of references named after ticks above [ck], some of them
    possibly absent, has no duplicate when the ticks differ. *)
Fixpoint chain (ck : nat) (xs : list (bool * nat)) : list ref :=
  match xs with
  | [] => []
  | x :: xs => picked (fresh x.1 (x.2 + ck)) ++ chain ck xs
  end.

(** The mapping as the specification words it: a dedicated identifier and
    no length for md5 and sha1, the SHA-2 identifier and the length in bits
    for the four SHA-2 names. *)
Definition spec_digest (h : string) : option (sec_const * option Z) :=
  if bool_decide (h = "md5") then Some (kSecDigestMD5, None)
  else if bool_decide (h = "sha1") then Some (kSecDigestSHA1, None)
  else if bool_decide (h = "sha224") then Some (kSecDigestSHA2, Some 224%Z)
  else if bool_decide (h = "sha256") then Some (kSecDigestSHA2, Some 256%Z)
  else if bool_decide (h = "sha384") then Some (kSecDigestSHA2, Some 384%Z)
  else if bool_decide (h = "sha512") then Some (kSecDigestSHA2, Some 512%Z)
  else None.

(** The digest attributes set in a stretch of trace. *)
Definition digest_attribute_of (e : event) : option (sec_const * cf_value) :=
  match ev_call e with
  | SecTransformSetAttribute _ kSecDigestTypeAttribute v =>
      Some (kSecDigestTypeAttribute, v)
  | SecTransformSetAttribute _ kSecDigestLengthAttribute v =>
      Some (kSecDigestLengthAttribute, v)
  | _ => None
  end.
Abbreviation digest_attributes := (collect digest_attribute_of).

Definition digest_set (c : sec_const) (ob : option Z) (new : list event) : Prop :=
  match ob with
  | None =>
      wrapped_numbers new = []
      /\ digest_attributes new `prefix_of` [(kSecDigestTypeAttribute, VConst c)]
      /\ (executed new <> [] ->
          digest_attributes new = [(kSecDigestTypeAttribute, VConst c)])
  | Some n =>
      exists r,
        wrapped_numbers new `prefix_of` [(n, r)]
        /\ digest_attributes new `prefix_of`
             [(kSecDigestTypeAttribute, VConst c); (kSecDigestLengthAttribute, VRef r)]
        /\ (executed new <> [] ->
            wrapped_numbers new = [(n, r)]
            /\ digest_attributes new =
                 [(kSecDigestTypeAttribute, VConst c);
                  (kSecDigestLengthAttribute, VRef r)])
  end.




(** The curve of an EC key is one the platform takes: a named curve, one
    of secp256r1, secp384r1 and secp521r1. *)
Definition supported_ec_curve (k : KeyInfo) : Prop :=
  (curve k).1 = "named" /\ exists n, (curve k).2 = Some n /\ n ∈ ec_curves.

(** The bytes a loader reads from a source given as a byte string or as
    the name of a file. *)
Definition read_source (source : pyval) : option bytes :=
  match source with
  | PyBytes b => Some b
  | PyStr path =>
      match read_file path with
      | Ok b => Some b
      | Raise _ => None
      end
  | _ => None
  end.

(** [k] is refused with [e], the locals and the world left as they were,
    however it reaches [_load_key]: directly, through [load_private_key] or
    [load_public_key] given the structure or given bytes or a file that
    parse to it, or as the key of a PKCS#12 container. *)
Definition rejected_on_every_route (k : KeyInfo) (e : exn) : Prop :=
  forall l w,
    _load_key k l w = (Raise e, l, w)
    /\ (forall password,
          key_class k = PrivateKeyInfo ->
          load_private_key (PyKeyInfo k) password l w = (Raise e, l, w))
    /\ (forall source password p b,
          check_password password l w = (Ok p, l, w) ->
          read_source source = Some b ->
          parse_private b p = Ok k ->
          load_private_key source password l w = (Raise e, l, w))
    /\ (key_class k = PublicKeyInfo ->
        load_public_key (PyKeyInfo k) l w = (Raise e, l, w))
    /\ (forall source b,
          read_source source = Some b ->
          parse_public b = Ok k ->
          load_public_key source l w = (Raise e, l, w))
    /\ (forall source password p b ks ci ei,
          check_password password l w = (Ok p, l, w) ->
          read_source source = Some b ->
          parse_pkcs12 b p = Ok (k :: ks, ci, ei) ->
          load_pkcs12 source password l w = (Raise e, l, w)).

(** The object at [a] is a certificate handle for [c] whose public key has
    not been derived. *)
Definition cert_at (h : gmap addr obj) (a : addr) (c : CertInfo) : Prop :=
  exists r, h !! a = Some (Certificate r c None).

(** The certificate slot of a bundle: empty when the container has no
    certificate, else a handle for the first one. *)
Definition cert_slot (h : gmap addr obj) (cert : option addr) (cs : list CertInfo) : Prop :=
  match cs with
  | [] => cert = None
  | c :: _ => exists a, cert = Some a /\ cert_at h a c
  end.

(** [m] fails with [ValueError] and leaves the locals and the world as
    they were: no call to the framework has been made. *)
Definition refuses {A} (m : M A) (l : frame) (w : world) : Prop :=
  exists msg, m l w = (Raise (ValueError msg), l, w).

(** The calls that reading an attribute of a key may make: none, or the
    one that derives the public key of a certificate. *)
Definition only_derives (new : list event) : Prop :=
  new = [] \/ exists c r p, new = [Ev (SecCertificateCopyPublicKey c) r p].

(** [m] fails, having made no call other than those of [only_derives]:
    with [OSError] if that call failed, and otherwise with [ValueError], or
    with [AttributeError] where the argument has no key to read the
    attribute from. *)
Definition fails_early {A} (m : M A) (l : frame) (w : world) : Prop :=
  exists e new,
    (m l w).1.1 = Raise e
    /\ trace (m l w).2 = trace w ++ new
    /\ only_derives new
    /\ (failures new <> [] -> e = OSError)
    /\ (failures new = [] -> (exists msg, e = ValueError msg) \/ e = AttributeError).

(** [m] makes no call other than those of [only_derives] and fails with
    [ValueError], unless that call failed: then it fails with [OSError]. *)
Definition refuses_or_fails_deriving {A} (m : M A) (l : frame) (w : world) : Prop :=
  exists new,
    trace (m l w).2 = trace w ++ new
    /\ only_derives new
    /\ ((failures new = [] /\ exists msg, (m l w).1.1 = Raise (ValueError msg))
        \/ (failures new <> [] /\ (m l w).1.1 = Raise OSError)).

(** A call that builds a transform. *)
Definition transform_call_of (e : event) : option call :=
  match ev_call e with
  | SecEncryptTransformCreate _ | SecDecryptTransformCreate _
  | SecSignTransformCreate _ | SecVerifyTransformCreate _ _ => Some (ev_call e)
  | _ => None
  end.

(** Bytes wrapped for the framework, with the reference handed back. *)
Definition wrapped_data_of (e : event) : option (bytes * option ref) :=
  match ev_call e with
  | cf_data_from_bytes b => Some (b, ev_ret e)
  | _ => None
  end.


(** The key structure that the attributes of the handle at [a] are read
    from: that of a key object; for a certificate that of its derived
    public key, or, when the key is still to be derived and there is a
    reference to derive it from, the subject public key of the
    certificate. *)
Definition key_info_of (hp : gmap addr obj) (a : addr) : option KeyInfo :=
  match hp !! a with
  | Some (PrivateKey _ k) | Some (PublicKey _ k) => Some k
  | Some (Certificate cr c pk) =>
      match pk with
      | Some ka =>
          match hp !! ka with
          | Some (PrivateKey _ k) | Some (PublicKey _ k) => Some k
          | _ => None
          end
      | None => if truthy cr then Some (subject_public_key_info c) else None
      end
  | None => None
  end.

(** A digest attribute set on a transform, with the transform. *)
Definition digest_on (e : event) : option (option ref * sec_const * cf_value) :=
  match ev_call e with
  | SecTransformSetAttribute t kSecDigestTypeAttribute v =>
      Some (t, kSecDigestTypeAttribute, v)
  | SecTransformSetAttribute t kSecDigestLengthAttribute v =>
      Some (t, kSecDigestLengthAttribute, v)
  | _ => None
  end.

(** The digest as a run that got through has set it: one transform [t]
    was built, the digest type was set on it to [c], and, exactly when a
    length [n] goes with the name, [n] was wrapped and the digest length set
    on [t] to the wrapped number; [t] is the transform that was executed. *)
Definition digest_done (c : sec_const) (ob : option Z) (new : list event) : Prop :=
  exists t,
    transforms new = [t]
    /\ executed new = [Some t]
    /\ match ob with
       | None =>
           wrapped_numbers new = []
           /\ collect digest_on new = [(Some t, kSecDigestTypeAttribute, VConst c)]
       | Some n =>
           exists r,
             wrapped_numbers new = [(n, r)]
             /\ collect digest_on new =
                  [(Some t, kSecDigestTypeAttribute, VConst c);
                   (Some t, kSecDigestLengthAttribute, VRef r)]
       end.

(** The reference of an object that [_load_key] or [_load_x509] wraps for
    the framework: the source bytes, the attribute dictionary. *)
Definition wrapped_of (e : event) : option ref :=
  match ev_call e with
  | cf_data_from_bytes _ | cf_dictionary_from_pairs _ => ev_ret e
  | _ => None
  end.

(** The reference handed back by the call that builds a key or a
    certificate. *)
Definition built_of (e : event) : option (option ref) :=
  match ev_call e with
  | SecKeyCreateFromData _ _ | SecCertificateCreateWithData _ _ => Some (ev_ret e)
  | _ => None
  end.

(** The handle [_load_key] builds for [k] around the reference [r]. *)
Definition key_handle (k : KeyInfo) (r : option ref) : obj :=
  if bool_decide (key_class k = PublicKeyInfo) then PublicKey r k else PrivateKey r k.

(** The direct call of [rsa_pkcs1v15_encrypt] and [rsa_pkcs1v15_decrypt],
    with the data, the key's byte size and the bytes it hands back. *)
Definition direct_of (e : event) : option (call * bytes) :=
  match ev_call e with
  | SecKeyEncrypt _ _ _ _ | SecKeyDecrypt _ _ _ _ =>
      Some (ev_call e, out_bytes (ev_resp e))
  | _ => None
  end.


(** The value of a padding attribute set on a transform. *)
Definition padding_of (e : event) : option cf_value :=
  match ev_call e with
  | SecTransformSetAttribute _ kSecPaddingKey v => Some v
  | _ => None
  end.

(** The padding [_sign] and [_verify] set for a key: PKCS#1 v1.5 for an
    RSA key, none for another. *)
Definition padding_for (k : KeyInfo) : list cf_value :=
  if bool_decide (algorithm k = "rsa") then [VConst kSecPaddingPKCS1Key] else [].

(** A password the loaders take: none, a unicode string or a byte
    string. *)
Definition password_ok (v : pyval) : bool :=
  match v with
  | PyNone | PyStr _ | PyBytes _ => true
  | _ => false
  end.

(** * Properties *)

(** ** Running a program step by step *)

Lemma wp_intro {A} (m : M A) (P : result A * frame * world -> Prop) l w :
  wp m (fun r l' w' => P (r, l', w')) l w -> P (m l w).
Proof. unfold wp. by destruct (m l w) as [[r l'] w']. Qed.

Lemma wp_bind {A B} (m : M A) (k : A -> M B) Q l w :
  wp m (fun r l' w' =>
          match r with
          | Ok a => wp (k a) Q l' w'
          | Raise e => Q (Raise e) l' w'
          end) l w ->
  wp (bind m k) Q l w.
Proof. unfold wp, bind. destruct (m l w) as [[[a|e] l'] w']; done. Qed.

Lemma wp_ret {A} (a : A) (Q : result A -> frame -> world -> Prop) l w :
  Q (Ok a) l w -> wp (ret a) Q l w.
Proof. done. Qed.

Lemma wp_raise {A} e (Q : result A -> frame -> world -> Prop) l w :
  Q (Raise e) l w -> wp (raise e) Q l w.
Proof. done. Qed.

Lemma wp_lift {A} (r : result A) (Q : result A -> frame -> world -> Prop) l w :
  Q r l w -> wp (lift r) Q l w.
Proof. by destruct r. Qed.

Lemma wp_when (c : bool) m Q l w :
  (if c then wp m Q l w else Q (Ok tt) l w) -> wp (when c m) Q l w.
Proof. by destruct c. Qed.

Lemma wp_try_finally {A} (body : M A) fin Q l w :
  wp body (fun r l1 w1 =>
             wp fin (fun r2 l2 w2 =>
                       match r2 with
                       | Ok _ => Q r l2 w2
                       | Raise e => Q (Raise e) l2 w2
                       end) l1 w1) l w ->
  wp (try_finally body fin) Q l w.
Proof.
  unfold wp, try_finally. destruct (body l w) as [[r l1] w1].
  by destruct (fin l1 w1) as [[[[]|e] l2] w2].
Qed.

Lemma wp_fn {A} (body : M A) Q l w :
  wp body (fun r _ w' => Q r l w') frame0 w -> wp (fn body) Q l w.
Proof. unfold wp, fn. by destruct (body frame0 w) as [[r l'] w']. Qed.

Lemma wp_get_locals (Q : result frame -> frame -> world -> Prop) l w :
  Q (Ok l) l w -> wp get_locals Q l w.
Proof. done. Qed.

Lemma wp_set_locals f (Q : result unit -> frame -> world -> Prop) l w :
  Q (Ok tt) (f l) w -> wp (set_locals f) Q l w.
Proof. done. Qed.

Lemma wp_get_heap (Q : result (gmap addr obj) -> frame -> world -> Prop) l w :
  Q (Ok (heap w)) l w -> wp get_heap Q l w.
Proof. done. Qed.

Lemma wp_load a (Q : result obj -> frame -> world -> Prop) l w :
  match heap w !! a with
  | Some o => Q (Ok o) l w
  | None => Q (Raise AttributeError) l w
  end ->
  wp (load a) Q l w.
Proof. unfold wp, load. by destruct (heap w !! a). Qed.

Lemma wp_update a o (Q : result unit -> frame -> world -> Prop) l w :
  Q (Ok tt) l (store a o w) -> wp (update a o) Q l w.
Proof. done. Qed.

Lemma wp_new_obj o (Q : result addr -> frame -> world -> Prop) l w :
  Q (Ok (next_addr w)) l (alloc o w) -> wp (new_obj o) Q l w.
Proof. done. Qed.

Lemma wp_native c (Q : result (response * option ref) -> frame -> world -> Prop) l w :
  Q (Ok (oracle (clock w) c, fresh (creates c && ok (oracle (clock w) c)) (clock w)))
    l (tick (log (Ev c (oracle (clock w) c)
                     (fresh (creates c && ok (oracle (clock w) c)) (clock w))) w)) ->
  wp (native c) Q l w.
Proof. done. Qed.

Ltac head_of t :=
  lazymatch t with
  | ?f _ => head_of f
  | _ => t
  end.

(** The innermost scrutinee on which a term is stuck. *)
Ltac stuck_in t :=
  lazymatch t with
  | bool_decide _ => t
  | truthy ?o => stuck_in o
  | negb ?b => stuck_in b
  | andb ?b _ => stuck_in b
  | _ =>
      match t with
      | context [match ?x with _ => _ end] => stuck_in x
      | _ => t
      end
  end.

Ltac norm :=
  cbv beta iota zeta delta
    [tick log store alloc
     set_cf_signature set_cf_data set_cf_hash_length set_sec_transform
     set_cf_source set_cf_dict set_error_pointer frame0
     isinstance_PrivateKey isinstance_Certificate_PublicKey as_key_info];
  cbn [heap next_addr trace clock
       cf_signature cf_data cf_hash_length sec_transform cf_source cf_dict
       cf_output error_pointer fst snd negb andb creates fresh truthy
       length app picked].

(** One step of the program at the head of the goal; [rule] is tried on a
    call of a function before the function is unfolded. *)
Ltac wp_step rule :=
  first
  [ rule
  | lazymatch goal with
  | |- wp (bind _ _) _ _ _ => apply wp_bind
  | |- wp (ret _) _ _ _ => apply wp_ret
  | |- wp (raise _) _ _ _ => apply wp_raise
  | |- wp (lift _) _ _ _ => apply wp_lift
  | |- wp (when _ _) _ _ _ => apply wp_when
  | |- wp (try_finally _ _) _ _ _ => apply wp_try_finally
  | |- wp (fn _) _ _ _ => apply wp_fn
  | |- wp get_locals _ _ _ => apply wp_get_locals
  | |- wp (set_locals _) _ _ _ => apply wp_set_locals
  | |- wp get_heap _ _ _ => apply wp_get_heap
  | |- wp (load _) _ _ _ => apply wp_load
  | |- wp (update _ _) _ _ _ => apply wp_update
  | |- wp (new_obj _) _ _ _ => apply wp_new_obj
  | |- wp (native _) _ _ _ => apply wp_native
  | |- wp (match ?x with _ => _ end) _ _ _ =>
      let y := stuck_in x in destruct y eqn:?
  | |- wp ?m _ _ _ =>
      first [progress cbv zeta | let h := head_of m in unfold h]
  | |- match ?x with _ => _ end =>
      let y := stuck_in x in destruct y eqn:?
  end ];
  norm.

Ltac wp_run0 := repeat wp_step fail.

(** Hide the statement while the program runs. *)
Ltac wp_start t :=
  pattern t; apply wp_intro;
  lazymatch goal with
  | |- wp _ ?Q _ _ => let Post := fresh "Post" in set (Post := Q)
  end.
Ltac wp_start_run :=
  match goal with |- context [?m ?l ?w] =>
    lazymatch type of (m l w) with
    | (result _ * frame * world)%type => wp_start (m l w)
    end
  end.
Ltac show_post :=
  match goal with Post := _ |- _ => subst Post; cbv beta end.

Ltac trace_eq :=
  cbn [snd trace]; rewrite <- ?app_assoc;
  first [reflexivity | symmetry; apply app_nil_r].

(** A fact about the tables of the module does not depend on the
    framework or on the parsers. *)
Ltac pure :=
  clear oracle add_pss_padding verify_pss_padding parse_certificate
        parse_private parse_public parse_pkcs12 read_file encode_utf8 repr.

(** ** Summaries *)

Lemma collect_app {A} (g : event -> option A) tr1 tr2 :
  collect g (tr1 ++ tr2) = collect g tr1 ++ collect g tr2.
Proof. induction tr1 as [|e tr1 IH]; cbn; [done|]. by rewrite IH, app_assoc. Qed.

Lemma release_events_app n rs1 rs2 :
  release_events n (rs1 ++ rs2) =
  release_events n rs1 ++ release_events (n + length rs1) rs2.
Proof.
  revert n; induction rs1 as [|r rs1 IH]; intros n; cbn.
  - by rewrite Nat.add_0_r.
  - by rewrite IH, Nat.add_succ_r.
Qed.

Lemma released_release_events n rs : released (release_events n rs) = rs.
Proof. revert n; induction rs as [|r rs IH]; intros n; cbn; [done|by rewrite IH]. Qed.

Lemma collect_release_events {A} (g : event -> option A) n rs :
  (forall r resp, g (Ev (CFRelease r) resp None) = None) ->
  collect g (release_events n rs) = [].
Proof.
  intros Hg. revert n; induction rs as [|r rs IH]; intros n; cbn; [done|].
  by rewrite Hg, IH.
Qed.

Lemma wp_release_if r (Q : result unit -> frame -> world -> Prop) l w :
  Q (Ok tt) l
    {| heap := heap w; next_addr := next_addr w;
       trace := trace w ++ release_events (clock w) (picked r);
       clock := clock w + length (picked r) |} ->
  wp (release_if r) Q l w.
Proof.
  destruct w, r; cbn; rewrite ?app_nil_r, ?Nat.add_0_r, ?Nat.add_1_r; done.
Qed.

Lemma wp_sign_finally (Q : result unit -> frame -> world -> Prop) l w :
  (let rs := picked (sec_transform l) ++ picked (cf_signature l) ++
             picked (cf_data l) ++ picked (cf_hash_length l) ++ [] in
   Q (Ok tt) l
     {| heap := heap w; next_addr := next_addr w;
        trace := trace w ++ release_events (clock w) rs;
        clock := clock w + length rs |}) ->
  wp sign_finally Q l w.
Proof.
  intros HQ. cbv zeta in HQ. rewrite app_nil_r in HQ. unfold sign_finally.
  apply wp_bind, wp_get_locals.
  do 3 (apply wp_bind, wp_release_if); apply wp_release_if.
  cbn [heap next_addr trace clock].
  rewrite !release_events_app, !length_app, ?Nat.add_assoc in HQ.
  by rewrite <- ?app_assoc.
Qed.

Lemma wp_crypt_finally (Q : result unit -> frame -> world -> Prop) l w :
  (let rs := picked (cf_data l) ++ picked (sec_transform l) ++ [] in
   Q (Ok tt) l
     {| heap := heap w; next_addr := next_addr w;
        trace := trace w ++ release_events (clock w) rs;
        clock := clock w + length rs |}) ->
  wp crypt_finally Q l w.
Proof.
  intros HQ. cbv zeta in HQ. rewrite app_nil_r in HQ. unfold crypt_finally.
  apply wp_bind, wp_get_locals.
  apply wp_bind, wp_release_if; apply wp_release_if.
  cbn [heap next_addr trace clock].
  rewrite !release_events_app, !length_app, ?Nat.add_assoc in HQ.
  by rewrite <- ?app_assoc.
Qed.

Lemma wp_key_attribute {A} (f : option ref -> KeyInfo -> A) v Q l w :
  (forall r hp na evs,
     key_run (clock w) r evs ->
     Q r l {| heap := hp; next_addr := na;
              trace := trace w ++ evs; clock := clock w + length evs |}) ->
  wp (key_attribute f v) Q l w.
Proof.
  intros HQ. destruct w as [hp na tr ck]. cbn [trace clock] in HQ.
  assert (HQ0 : forall r hp na,
    key_run ck r [] -> Q r l {| heap := hp; next_addr := na; trace := tr; clock := ck |}).
  { intros r hp' na' Hr. specialize (HQ r hp' na' [] Hr).
    by rewrite app_nil_r, Nat.add_0_r in HQ. }
  assert (HQ1 : forall r hp na e,
    key_run ck r [e] ->
    Q r l {| heap := hp; next_addr := na; trace := tr ++ [e]; clock := S ck |}).
  { intros r hp' na' e Hr. specialize (HQ r hp' na' [e] Hr).
    by rewrite Nat.add_1_r in HQ. }
  clear HQ. unfold key_attribute, Certificate_public_key.
  wp_run0.
  all: try (apply HQ0; by constructor).
  all: apply HQ1; by constructor.
Qed.

(** The cleanup blocks, by their summaries. *)
Ltac finalizers :=
  idtac;
  lazymatch goal with
  | |- wp sign_finally _ _ _ => apply wp_sign_finally
  | |- wp crypt_finally _ _ _ => apply wp_crypt_finally
  | |- wp (release_if _) _ _ _ => apply wp_release_if
  end.

(** Reading a key attribute too, by its summary: what the heap holds is
    forgotten. *)
Ltac summaries :=
  idtac;
  lazymatch goal with
  | |- wp (key_attribute _ _) _ _ _ =>
      let K := fresh "K" in
      apply wp_key_attribute; cbn [clock trace]; intros ? ? ? ? K;
      destruct K;
      rewrite ?Nat.add_0_r, ?app_nil_r, ?Nat.add_1_r
  | |- _ => finalizers
  end.

(** A lookup whose result a hypothesis gives. *)
Ltac known :=
  idtac;
  match goal with
  | H : ?m !! ?a = _ |- context [?m !! ?a] => rewrite H
  | H : ?x = _ |- wp (match ?x with _ => _ end) _ _ _ => rewrite H
  | H : ?x = _ |- match ?x with _ => _ end => rewrite H
  end.

Ltac wp_run := repeat wp_step summaries.
Ltac wp_run1 := repeat wp_step ltac:(first [known | finalizers]).

(** ** Cleanup of the staged pipelines *)

Lemma elem_of_chain ck xs r : r ∈ chain ck xs -> exists i, i ∈ xs.*2 /\ r = i + ck.
Proof.
  induction xs as [|[b i] xs IH]; cbn; [by intros ?%elem_of_nil|].
  rewrite elem_of_app. intros [Hr|Hr].
  - destruct b; cbn in Hr; [|by apply elem_of_nil in Hr].
    apply list_elem_of_singleton in Hr. exists i. split; [left|done].
  - destruct (IH Hr) as (j & ? & ?). exists j. split; [by right|done].
Qed.

Lemma NoDup_chain ck xs : bool_decide (NoDup xs.*2) = true -> NoDup (chain ck xs).
Proof.
  intros H%bool_decide_eq_true. induction xs as [|[b i] xs IH]; cbn; [constructor|].
  cbn in H. apply NoDup_cons in H as [Hi H].
  apply NoDup_app. split_and!.
  - destruct b; cbn; [apply NoDup_singleton|constructor].
  - intros r Hr Hr'. destruct b; cbn in Hr; [|by apply elem_of_nil in Hr].
    apply list_elem_of_singleton in Hr. subst r.
    apply elem_of_chain in Hr' as (j & Hj & ?).
    assert (i = j) by lia. by subst.
  - by apply IH.
Qed.

Ltac offset_of t :=
  lazymatch t with
  | S ?t' => let o := offset_of t' in constr:(S o)
  | _ => constr:(O)
  end.
Ltac base_of t :=
  lazymatch t with
  | S ?t' => base_of t'
  | _ => t
  end.
Ltac reify_chain l :=
  lazymatch l with
  | ?x :: ?l' =>
      let o := offset_of x in
      let r := reify_chain l' in
      constr:((true, o) :: r)
  | picked (fresh ?b ?x) ++ ?l' =>
      let o := offset_of x in
      let r := reify_chain l' in
      constr:((b, o) :: r)
  | _ => constr:(@nil (bool * nat))
  end.
Ltac base_of_chain l :=
  lazymatch l with
  | ?x :: _ => base_of x
  | picked (fresh _ ?x) ++ _ => base_of x
  end.

Ltac nodup_chain :=
  lazymatch goal with
  | |- NoDup [] => apply NoDup_nil_2
  | |- NoDup ?l =>
      let ck := base_of_chain l in
      let xs := reify_chain l in
      change (NoDup (chain ck xs));
      apply NoDup_chain; vm_compute; reflexivity
  end.

Ltac observe :=
  cbn [app];
  cbn [collect picked app ev_call ev_ret ev_resp
       released_of transform_of data_of number_of produced_of made_of];
  rewrite ?released_release_events;
  rewrite ?collect_release_events by done;
  cbn [app].

Ltac cleanup_proof :=
  wp_start_run; wp_run;
  show_post; eexists; (split; [trace_eq|]);
  observe;
  split_and!;
  first [nodup_chain | rewrite ?app_nil_r, <- ?app_assoc; reflexivity].

Lemma made_roles tr : made tr ≡ₚ transforms tr ++ datas tr ++ numbers tr.
Proof.
  induction tr as [|[c r p] tr IH]; [done|].
  destruct c, p; cbn in *; rewrite ?IH; try done.
  all: by rewrite <- ?Permutation_middle.
Qed.

Lemma cleanup_encrypt key data padding l w :
  exists new,
    trace (_encrypt key data padding l w).2 = trace w ++ new
    /\ released new = datas new ++ transforms new
    /\ numbers new = []
    /\ NoDup (released new).
Proof. destruct w as [hp na tr ck]. cbn [trace]. cleanup_proof. Qed.

Lemma cleanup_decrypt key data padding l w :
  exists new,
    trace (_decrypt key data padding l w).2 = trace w ++ new
    /\ released new = datas new ++ transforms new
    /\ numbers new = []
    /\ NoDup (released new).
Proof. destruct w as [hp na tr ck]. cbn [trace]. cleanup_proof. Qed.

Lemma cleanup_verify key signature data h l w :
  exists new,
    trace (_verify key signature data h l w).2 = trace w ++ new
    /\ released new = transforms new ++ datas new ++ numbers new
    /\ NoDup (released new).
Proof. destruct w as [hp na tr ck]. cbn [trace]. cleanup_proof. Qed.

Lemma cleanup_sign key data h l w :
  exists new,
    trace (_sign key data h l w).2 = trace w ++ new
    /\ released new = transforms new ++ produced new ++ datas new ++ numbers new
    /\ NoDup (released new).
Proof. destruct w as [hp na tr ck]. cbn [trace]. cleanup_proof. Qed.

(** C4, as the code has it.  In [_encrypt], [_decrypt], [_sign] and
    [_verify], on every exit path, each wrapped input, wrapped signature,
    wrapped digest-length number and transform that the call made is
    released exactly once.  The releases follow the fixed order of the
    [finally] block: data then transform in [_encrypt] and [_decrypt];
    transform, signature, data, digest-length number in [_sign] and
    [_verify].  That order is not the reverse of the order of creation. *)
Theorem staged_cleanup key a b padding h l w :
  (exists new,
     trace (_encrypt key a padding l w).2 = trace w ++ new
     /\ released new = datas new ++ transforms new
     /\ released new ≡ₚ made new /\ NoDup (released new))
  /\ (exists new,
     trace (_decrypt key a padding l w).2 = trace w ++ new
     /\ released new = datas new ++ transforms new
     /\ released new ≡ₚ made new /\ NoDup (released new))
  /\ (exists new,
     trace (_verify key a b h l w).2 = trace w ++ new
     /\ released new = transforms new ++ datas new ++ numbers new
     /\ released new ≡ₚ made new /\ NoDup (released new))
  /\ (exists new,
     trace (_sign key a h l w).2 = trace w ++ new
     /\ released new = transforms new ++ produced new ++ datas new ++ numbers new
     /\ released new ≡ₚ made new ++ produced new /\ NoDup (released new)).
Proof.
  split_and!.
  - destruct (cleanup_encrypt key a padding l w) as (new & Ht & Hr & Hz & Hn).
    exists new. split_and!; try done.
    by rewrite Hr, made_roles, Hz, app_nil_r, Permutation_app_comm.
  - destruct (cleanup_decrypt key a padding l w) as (new & Ht & Hr & Hz & Hn).
    exists new. split_and!; try done.
    by rewrite Hr, made_roles, Hz, app_nil_r, Permutation_app_comm.
  - destruct (cleanup_verify key a b h l w) as (new & Ht & Hr & Hn).
    exists new. split_and!; try done.
    by rewrite Hr, made_roles.
  - destruct (cleanup_sign key a h l w) as (new & Ht & Hr & Hn).
    exists new. split_and!; try done.
    rewrite Hr, made_roles.
    rewrite <- !app_assoc. apply Permutation_app_head.
    rewrite (app_assoc (datas new)). apply Permutation_app_comm.
Qed.

(** ** Runs on a known handle *)

(** The tables agree with [spec_digest]. *)
Lemma hash_names_cases h :
  h ∈ hash_names ->
  h = "md5" \/ h = "sha1" \/ h = "sha224" \/ h = "sha256" \/ h = "sha384" \/ h = "sha512".
Proof. pure. unfold hash_names. set_solver. Qed.

Lemma spec_digest_tables h c ob :
  spec_digest h = Some (c, ob) ->
  hash_constants !! h = Some c
  /\ bool_decide (h ∈ sha2_names) = truthy ob
  /\ (truthy ob = true -> hash_bit_lengths !! h = ob).
Proof.
  pure.
  unfold spec_digest. intros H.
  repeat case_bool_decide; simplify_eq; by vm_compute.
Qed.

Lemma spec_digest_names h : h ∈ hash_names <-> is_Some (spec_digest h).
Proof.
  pure.
  split.
  - intros H%hash_names_cases.
    destruct H as [->|[->|[->|[->|[->| ->]]]]]; eexists; vm_compute; reflexivity.
  - unfold spec_digest. intros [x H].
    repeat case_bool_decide; simplify_eq; unfold hash_names; set_solver.
Qed.

Ltac use_answers :=
  repeat match goal with
         | H : ok ?r = _ |- context [ok ?r] => rewrite H
         | H : out_bool ?r = _ |- context [out_bool ?r] => rewrite H
         end.

Ltac contra :=
  match goal with
  | H : ?x <> ?x |- _ => exact (H eq_refl)
  | H : @eq (result _) _ _ |- _ => discriminate H
  | H : @eq (list _) _ _ |- _ => discriminate H
  end.

(** Closing a statement about a known outcome and known lists. *)
Ltac leaf :=
  lazymatch goal with
  | |- _ /\ _ => split; leaf
  | |- exists _, _ => eexists; leaf
  | |- forall _, _ => let H := fresh in intros H; leaf
  | |- _ <> _ => let H := fresh in intros H; exfalso; contra
  | |- _ `prefix_of` _ => repeat first [apply prefix_nil | apply prefix_cons]
  | |- NoDup _ => rewrite <- ?app_assoc; cbn [app]; nodup_chain
  | |- _ = _ =>
      first [ reflexivity
            | exfalso; contra
            | match goal with
              | H : @eq (result _) (Ok _) (Ok _) |- _ => injection H as <-; reflexivity
              end ]
  end.

Ltac observe_all :=
  cbn [app fst snd];
  cbn [collect app];
  rewrite ?released_release_events;
  rewrite ?collect_release_events by done;
  unfold failure_of;
  cbn [picked app ev_call ev_ret ev_resp fst snd
       released_of transform_of data_of number_of produced_of made_of
       verdict_of output_of attribute_of executed_of transform_call_of
       wrapped_data_of digest_attribute_of checked andb negb];
  use_answers;
  cbn [picked app andb negb length].

(** Lookups in a heap that the run has written to. *)
Ltac known_heap :=
  idtac;
  match goal with
  | H : ?m !! ?a = _ |- context [?m !! ?a] => rewrite H
  | |- context [<[?i := _]> _ !! ?i] => rewrite lookup_insert_eq
  | H : ?i <> ?j |- context [<[?i := _]> _ !! ?j] =>
      rewrite (lookup_insert_ne _ i j) by exact H
  | H : ?x = _ |- wp (match ?x with _ => _ end) _ _ _ => rewrite H
  | H : ?x = _ |- match ?x with _ => _ end => rewrite H
  end.

Ltac wp_run2 := repeat wp_step ltac:(first [known_heap | finalizers]).

(** The shapes of a handle that gives a key. *)
Ltac handle_shapes Hk :=
  unfold key_info_of in Hk;
  lazymatch type of Hk with
  | context [?hp !! ?a] =>
      let Ha := fresh "Ha" in
      destruct (hp !! a) as [[? ?|? ?|[?|] ? [?ka|]]|] eqn:Ha;
      try discriminate Hk;
      try lazymatch type of Hk with
          | context [hp !! ?ka] =>
              let Hka := fresh "Hka" in
              destruct (hp !! ka) as [[? ?|? ?|? ? ?]|] eqn:Hka;
              try discriminate Hk
          end;
      cbn [truthy] in Hk;
      injection Hk as Hk; try subst
  end.

Ltac observe_handle :=
  observe_all;
  cbn [picked app ev_call ev_ret ev_resp fst snd wrapped_number_of digest_on].

Ltac algo_known :=
  try match goal with
      | H : bool_decide (algorithm ?k <> ?n) = true, Halg : algorithm ?k = ?n |- _ =>
          exfalso; apply (bool_decide_eq_true_1 _) in H; exact (H Halg)
      end.

Ltac either_leaf :=
  first [left; solve [leaf] | right; solve [leaf]].

(** Run [f] on a handle of a known shape, for a hash name whose entries in
    the tables are known. *)
Ltac digest_known f Hspec :=
  lazymatch type of Hspec with
  | spec_digest ?h = Some (?c, ?ob) =>
      let Hn := fresh "Hn" in
      let Hc := fresh "Hc" in
      let Hs := fresh "Hs" in
      let Hb := fresh "Hb" in
      assert (Hn : bool_decide (h ∈ hash_names) = true)
        by (apply bool_decide_eq_true, spec_digest_names; by eexists);
      destruct (spec_digest_tables h c ob Hspec) as (Hc & Hs & Hb);
      clear Hspec;
      destruct ob; cbn [truthy] in *;
      [specialize (Hb eq_refl)|clear Hb];
      unfold digest_set, digest_done;
      wp_start_run;
      unfold f, _verify_try, _sign_try, set_digest;
      rewrite Hn, Hc, Hs, ?Hb
  end.

Lemma verify_on_handle a k s d h c ob l w :
  isinstance_Certificate_PublicKey (heap w) (PyObj a) = true ->
  key_info_of (heap w) a = Some k ->
  a <> next_addr w ->
  spec_digest h = Some (c, ob) ->
  exists new,
    trace (_verify (PyObj a) (PyBytes s) (PyBytes d) h l w).2 = trace w ++ new
    /\ ((failures new <> []
         /\ (_verify (PyObj a) (PyBytes s) (PyBytes d) h l w).1.1 = Raise OSError)
        \/ (failures new = []
            /\ digest_done c ob new
            /\ exists v,
                 verdicts new = [v]
                 /\ (_verify (PyObj a) (PyBytes s) (PyBytes d) h l w).1.1
                    = if v then Ok tt
                      else Raise (SignatureError "Signature is invalid"))).
Proof.
  destruct w as [hp na tr ck]. cbn [trace heap next_addr].
  intros Hi Hk Hn Hspec. cbn [isinstance_Certificate_PublicKey] in Hi.
  handle_shapes Hk; try discriminate Hi; clear Hi.
  all: digest_known _verify Hspec.
  all: wp_run2.
  all: show_post; eexists; (split; [trace_eq|]).
  all: observe_handle.
  all: either_leaf.
Qed.

Lemma sign_on_handle a k d h c ob l w :
  isinstance_PrivateKey (heap w) (PyObj a) = true ->
  key_info_of (heap w) a = Some k ->
  spec_digest h = Some (c, ob) ->
  exists new,
    trace (_sign (PyObj a) (PyBytes d) h l w).2 = trace w ++ new
    /\ ((failures new <> []
         /\ (_sign (PyObj a) (PyBytes d) h l w).1.1 = Raise OSError)
        \/ (failures new = []
            /\ digest_done c ob new
            /\ exists sig,
                 outputs new = [sig]
                 /\ (_sign (PyObj a) (PyBytes d) h l w).1.1 = Ok sig)).
Proof.
  destruct w as [hp na tr ck]. cbn [trace heap next_addr].
  intros Hi Hk Hspec. cbn [isinstance_PrivateKey] in Hi.
  handle_shapes Hk; try discriminate Hi; clear Hi.
  all: digest_known _sign Hspec.
  all: wp_run2.
  all: show_post; eexists; (split; [trace_eq|]).
  all: observe_handle.
  all: either_leaf.
Qed.

Lemma pss_verify_on_handle a k s d h l w :
  isinstance_Certificate_PublicKey (heap w) (PyObj a) = true ->
  key_info_of (heap w) a = Some k ->
  a <> next_addr w ->
  algorithm k = "rsa" ->
  exists new,
    trace (rsa_pss_verify (PyObj a) (PyBytes s) (PyBytes d) h l w).2 = trace w ++ new
    /\ ((failures new <> []
         /\ (rsa_pss_verify (PyObj a) (PyBytes s) (PyBytes d) h l w).1.1 = Raise OSError)
        \/ (failures new = []
            /\ exists pt,
                 outputs new = [pt]
                 /\ (rsa_pss_verify (PyObj a) (PyBytes s) (PyBytes d) h l w).1.1
                    = match verify_pss_padding h (pss_hash_length h) (bit_size k) d pt with
                      | Ok true => Ok tt
                      | Ok false => Raise (SignatureError "Signature is invalid")
                      | Raise e => Raise e
                      end)).
Proof.
  destruct w as [hp na tr ck]. cbn [trace heap next_addr].
  intros Hi Hk Hn Halg. cbn [isinstance_Certificate_PublicKey] in Hi.
  handle_shapes Hk; try discriminate Hi; clear Hi.
  all: wp_start_run.
  all: wp_run2.
  all: algo_known.
  all: show_post; eexists; (split; [trace_eq|]).
  all: observe_handle.
  all: first [ left; solve [leaf]
             | right; split; [reflexivity|]; eexists; split; [reflexivity|];
               match goal with
               | H : verify_pss_padding _ _ _ _ _ = _ |- _ => rewrite H
               end; reflexivity ].
Qed.

(** ** Outcomes of verification *)

Ltac observe_outcome :=
  cbn [app fst snd];
  cbn [collect app];
  rewrite ?collect_release_events by done;
  unfold failure_of;
  cbn [picked app ev_call ev_ret ev_resp fst snd
       verdict_of output_of checked andb negb];
  use_answers;
  cbn [picked app andb negb].

(** Closing a statement about a known outcome and known lists. *)
Ltac settle :=
  lazymatch goal with
  | |- _ /\ _ => split; settle
  | |- _ <-> _ => split; settle
  | |- forall _, _ => let H := fresh in intros H; settle
  | |- _ <> _ => let H := fresh in intros H; exfalso; settle
  | |- ?x = ?x => reflexivity
  | |- _ = _ => exfalso; settle
  | |- False =>
      match goal with
      | H : ?x <> ?x |- _ => exact (H eq_refl)
      | H : @eq (result _) _ _ |- _ => discriminate H
      | H : @eq (list _) _ _ |- _ => discriminate H
      end
  end.

Lemma verify_outcome key signature data h l w :
  exists new,
    trace (_verify key signature data h l w).2 = trace w ++ new
    /\ (verdicts new = [false] ->
        (_verify key signature data h l w).1.1 = Raise (SignatureError "Signature is invalid"))
    /\ (forall m, (_verify key signature data h l w).1.1 = Raise (SignatureError m) ->
        verdicts new = [false] /\ failures new = [])
    /\ ((_verify key signature data h l w).1.1 = Raise OSError <-> failures new <> []).
Proof.
  destruct w as [hp na tr ck]. cbn [trace].
  wp_start_run. wp_run.
  all: show_post; eexists; (split; [trace_eq|]).
  all: observe_outcome.
  all: settle.
Qed.

(** C3.  A verification whose native calls all succeeded and whose
    verdict is negative ends in [SignatureError]; a native failure is
    reported as [OSError]; the two are never confused.  On a public key or
    a certificate [_verify], for a hash name of the set, ends in one of two
    ways: a checked call failed and the outcome is [OSError]; or none
    failed, the boolean was read off the result of the transform, and the
    outcome is success if it is true and [SignatureError] if it is false.
    With an RSA key [rsa_pss_verify] ends in [OSError] if a checked call
    failed; otherwise the block was read off the result of the raw
    encryption and the outcome is that of [verify_pss_padding] on it:
    success on true, [SignatureError] on false.  For [_verify] on any
    arguments: [SignatureError] is raised only when the verdict read is
    false and no checked call failed, and [OSError] exactly when one did. *)
Theorem signature_invalid_is_distinct key signature data a k s d h l w :
  isinstance_Certificate_PublicKey (heap w) (PyObj a) = true ->
  key_info_of (heap w) a = Some k ->
  a < next_addr w ->
  (exists new,
     trace (_verify key signature data h l w).2 = trace w ++ new
     /\ (verdicts new = [false] ->
         (_verify key signature data h l w).1.1
         = Raise (SignatureError "Signature is invalid"))
     /\ (forall m,
           (_verify key signature data h l w).1.1 = Raise (SignatureError m) ->
           verdicts new = [false] /\ failures new = [])
     /\ ((_verify key signature data h l w).1.1 = Raise OSError
         <-> failures new <> []))
  /\ (h ∈ hash_names ->
      exists new,
        trace (_verify (PyObj a) (PyBytes s) (PyBytes d) h l w).2 = trace w ++ new
        /\ ((failures new <> []
             /\ (_verify (PyObj a) (PyBytes s) (PyBytes d) h l w).1.1 = Raise OSError)
            \/ (failures new = []
                /\ exists v,
                     verdicts new = [v]
                     /\ (_verify (PyObj a) (PyBytes s) (PyBytes d) h l w).1.1
                        = if v then Ok tt
                          else Raise (SignatureError "Signature is invalid"))))
  /\ (algorithm k = "rsa" ->
      exists new,
        trace (rsa_pss_verify (PyObj a) (PyBytes s) (PyBytes d) h l w).2
        = trace w ++ new
        /\ ((failures new <> []
             /\ (rsa_pss_verify (PyObj a) (PyBytes s) (PyBytes d) h l w).1.1
                = Raise OSError)
            \/ (failures new = []
                /\ exists pt,
                     outputs new = [pt]
                     /\ (rsa_pss_verify (PyObj a) (PyBytes s) (PyBytes d) h l w).1.1
                        = match verify_pss_padding h (pss_hash_length h)
                                  (bit_size k) d pt with
                          | Ok true => Ok tt
                          | Ok false => Raise (SignatureError "Signature is invalid")
                          | Raise e => Raise e
                          end))).
Proof.
  intros Hi Hk Ha. assert (a <> next_addr w) as Hn by lia. split_and!.
  - apply verify_outcome.
  - intros Hh. apply spec_digest_names in Hh as [[c ob] Hspec].
    destruct (verify_on_handle a k s d h c ob l w Hi Hk Hn Hspec)
      as (new & Ht & [Hf|(Hf & _ & Hv)]); exists new; (split; [done|]).
    + by left.
    + by right.
  - intros Halg. by apply pss_verify_on_handle.
Qed.

(** ** The digest attributes *)

Ltac observe_digest :=
  cbn [app fst snd];
  cbn [collect app];
  rewrite ?collect_release_events by done;
  cbn [picked app ev_call ev_ret ev_resp fst snd
       wrapped_number_of digest_attribute_of executed_of].

Ltac digest_leaf :=
  split_and!;
  lazymatch goal with
  | |- _ `prefix_of` _ => repeat first [apply prefix_nil | apply prefix_cons]
  | |- _ = _ => reflexivity
  | |- _ -> _ =>
      let H := fresh in
      intros H;
      first [exfalso; apply H; reflexivity | split; reflexivity | reflexivity]
  end.

Ltac digest_proof f :=
  lazymatch goal with
  | H : spec_digest ?h = Some (?c, ?ob) |- _ =>
      let Hn := fresh "Hn" in
      let Hc := fresh "Hc" in
      let Hs := fresh "Hs" in
      let Hb := fresh "Hb" in
      assert (Hn : bool_decide (h ∈ hash_names) = true)
        by (apply bool_decide_eq_true, spec_digest_names; by eexists);
      destruct (spec_digest_tables h c ob H) as (Hc & Hs & Hb);
      clear H;
      destruct ob; cbn [truthy] in *;
      [specialize (Hb eq_refl)|clear Hb];
      unfold digest_set;
      wp_start_run;
      unfold f, _verify_try, _sign_try, set_digest;
      rewrite Hn, Hc, Hs, ?Hb
  end;
  wp_run;
  show_post; eexists; (split; [trace_eq|]);
  observe_digest;
  first [ solve [digest_leaf]
        | exists None; solve [digest_leaf]
        | eexists; solve [digest_leaf] ].

Lemma digest_verify key signature data h c ob l w :
  spec_digest h = Some (c, ob) ->
  exists new,
    trace (_verify key signature data h l w).2 = trace w ++ new
    /\ digest_set c ob new.
Proof.
  intros Hspec. destruct w as [hp na tr ck]. cbn [trace].
  digest_proof _verify.
Qed.

Lemma digest_sign key data h c ob l w :
  spec_digest h = Some (c, ob) ->
  exists new,
    trace (_sign key data h l w).2 = trace w ++ new
    /\ digest_set c ob new.
Proof.
  intros Hspec. destruct w as [hp na tr ck]. cbn [trace].
  digest_proof _sign.
Qed.

(** C5.  For a hash name of the set, [spec_digest] gives the identifier
    and the length the specification names: md5 and sha1 have their own
    identifier and no length, the four SHA-2 names share
    [kSecDigestSHA2] and carry 224, 256, 384 or 512.  The dictionaries of
    the code agree with it.  [_sign] on a key handle and [_verify] on a
    public key or a certificate end in one of two ways: a checked call
    failed and the outcome is [OSError]; or none failed, and then one
    transform was built and executed, the digest type was set on it to
    that identifier, and the digest length was set on it, to a wrapped
    number of that length, for the SHA-2 names and for no other.  On any
    arguments nothing else is ever set as a digest attribute, and whenever
    the transform is executed both have been set. *)
Theorem digest_mapping key signature data a b ks kv s d h c ob l w :
  spec_digest h = Some (c, ob) ->
  h ∈ hash_names
  /\ hash_constants !! h = Some c
  /\ (h ∈ sha2_names <-> is_Some ob)
  /\ (is_Some ob -> hash_bit_lengths !! h = ob)
  /\ (exists new,
        trace (_sign key data h l w).2 = trace w ++ new /\ digest_set c ob new)
  /\ (exists new,
        trace (_verify key signature data h l w).2 = trace w ++ new
        /\ digest_set c ob new)
  /\ (isinstance_PrivateKey (heap w) (PyObj a) = true ->
      key_info_of (heap w) a = Some ks ->
      exists new,
        trace (_sign (PyObj a) (PyBytes d) h l w).2 = trace w ++ new
        /\ ((failures new <> []
             /\ (_sign (PyObj a) (PyBytes d) h l w).1.1 = Raise OSError)
            \/ (failures new = []
                /\ digest_done c ob new
                /\ exists sig,
                     outputs new = [sig]
                     /\ (_sign (PyObj a) (PyBytes d) h l w).1.1 = Ok sig)))
  /\ (isinstance_Certificate_PublicKey (heap w) (PyObj b) = true ->
      key_info_of (heap w) b = Some kv ->
      b < next_addr w ->
      exists new,
        trace (_verify (PyObj b) (PyBytes s) (PyBytes d) h l w).2 = trace w ++ new
        /\ ((failures new <> []
             /\ (_verify (PyObj b) (PyBytes s) (PyBytes d) h l w).1.1 = Raise OSError)
            \/ (failures new = []
                /\ digest_done c ob new
                /\ exists v,
                     verdicts new = [v]
                     /\ (_verify (PyObj b) (PyBytes s) (PyBytes d) h l w).1.1
                        = if v then Ok tt
                          else Raise (SignatureError "Signature is invalid")))).
Proof.
  intros Hspec.
  destruct (spec_digest_tables h c ob Hspec) as (Hc & Hs & Hb).
  split_and!.
  - apply spec_digest_names. by eexists.
  - done.
  - split.
    + intros H. apply (bool_decide_eq_true_2 _) in H. rewrite Hs in H.
      destruct ob; [by eexists|done].
    + intros [n ->]. by apply bool_decide_eq_true in Hs.
  - intros [n ->]. by apply Hb.
  - by apply digest_sign.
  - by apply digest_verify.
  - intros Hi Hk. by apply (sign_on_handle a ks).
  - intros Hi Hk Hlt. apply (verify_on_handle b kv); [done|done|lia|done].
Qed.

(** ** Teardown of handles *)

Ltac eval_run :=
  cbv beta iota zeta delta
    [release_handle PrivateKey__del__ Certificate__del__ bind ret raise load
     update native store log tick fresh creates andb
     heap next_addr trace clock fst snd];
  rewrite ?lookup_insert_eq; rewrite ?lookup_insert_ne by done.


(** ** Loading *)

Ltac eval_load :=
  cbv beta iota zeta delta
    [_load_key check_key load_private_key load_public_key load_pkcs12
     check_password as_key_info expect_bytes
     fn bind ret raise lift when get_heap fst snd negb];
  cbn [heap fst snd negb andb].

Lemma check_key_ec k :
  algorithm k = "ec" ->
  (supported_ec_curve k /\ forall l w, check_key k l w = (Ok tt, l, w))
  \/ (~ supported_ec_curve k
      /\ exists msg, forall l w, check_key k l w = (Raise (PrivateKeyError msg), l, w)).
Proof.
  intros Halg. unfold supported_ec_curve, check_key.
  rewrite (bool_decide_eq_true_2 _ Halg).
  destruct (curve k) as [ct [d|]]; cbn [fst snd from_option].
  - destruct (decide (ct = "named")) as [->|Hct].
    + destruct (decide (d ∈ ec_curves)) as [Hd|Hd].
      * left. split; [eauto|]. intros l w. eval_load.
        rewrite bool_decide_eq_false_2 by (intros ?; done).
        by rewrite (bool_decide_eq_true_2 _ Hd).
      * right. split; [intros (_ & n & [= <-] & ?); done|].
        eexists. intros l w. eval_load.
        rewrite bool_decide_eq_false_2 by (intros ?; done).
        by rewrite (bool_decide_eq_false_2 _ Hd).
    + right. split; [by intros [? _]|].
      eexists. intros l w. eval_load.
      by rewrite (bool_decide_eq_true_2 _ Hct).
  - right. split; [by intros (_ & n & ? & _)|].
    destruct (decide (ct = "named")) as [->|Hct].
    + eexists. intros l w. eval_load.
      by rewrite bool_decide_eq_false_2 by (intros ?; done).
    + eexists. intros l w. eval_load.
      by rewrite (bool_decide_eq_true_2 _ Hct).
Qed.

Lemma check_key_dsa k :
  algorithm k = "dsa" ->
  (hash_algo k <> Some "sha2" /\ forall l w, check_key k l w = (Ok tt, l, w))
  \/ (hash_algo k = Some "sha2"
      /\ exists msg, forall l w, check_key k l w = (Raise (PrivateKeyError msg), l, w)).
Proof.
  intros Halg. unfold check_key.
  rewrite Halg. rewrite bool_decide_eq_false_2 by done.
  rewrite bool_decide_eq_true_2 by done.
  destruct (decide (hash_algo k = Some "sha2")) as [Hh|Hh].
  - right. split; [done|]. eexists. intros l w. eval_load.
    by rewrite (bool_decide_eq_true_2 _ Hh).
  - left. split; [done|]. intros l w. eval_load.
    by rewrite (bool_decide_eq_false_2 _ Hh).
Qed.

(** A key that the checks reject never reaches the framework. *)
Lemma load_key_rejected k e :
  (forall l w, check_key k l w = (Raise e, l, w)) ->
  forall l w, _load_key k l w = (Raise e, l, w).
Proof. intros H l w. unfold _load_key, fn, bind. by rewrite H. Qed.

(** The routes by which a parsed key reaches [_load_key]. *)
Lemma load_private_key_info k password l w :
  key_class k = PrivateKeyInfo ->
  load_private_key (PyKeyInfo k) password l w = _load_key k l w.
Proof.
  intros Hk. unfold load_private_key, as_key_info, bind, ret.
  rewrite (bool_decide_eq_true_2 _ Hk). reflexivity.
Qed.

Lemma load_public_key_info k l w :
  key_class k = PublicKeyInfo ->
  load_public_key (PyKeyInfo k) l w = _load_key k l w.
Proof.
  intros Hk. unfold load_public_key, as_key_info, bind, ret.
  rewrite (bool_decide_eq_true_2 _ Hk). reflexivity.
Qed.

Lemma load_private_key_source source password p b k l w :
  check_password password l w = (Ok p, l, w) ->
  read_source source = Some b ->
  parse_private b p = Ok k ->
  load_private_key source password l w = _load_key k l w.
Proof.
  intros Hp Hs Hk. unfold load_private_key.
  destruct source as [| |path| | | |]; try discriminate Hs; cbn in Hs.
  - injection Hs as ->. cbn [as_key_info]. unfold bind.
    rewrite Hp. cbv beta iota delta [ret lift]. rewrite Hk. reflexivity.
  - destruct (read_file path) as [b'|] eqn:Hr; [|discriminate Hs].
    injection Hs as ->. cbn [as_key_info]. unfold bind.
    rewrite Hp. cbv beta iota delta [ret lift]. rewrite Hk. reflexivity.
Qed.

Lemma load_public_key_source source b k l w :
  read_source source = Some b ->
  parse_public b = Ok k ->
  load_public_key source l w = _load_key k l w.
Proof.
  intros Hs Hk. unfold load_public_key.
  destruct source as [| |path| | | |]; try discriminate Hs; cbn in Hs.
  - injection Hs as ->. cbn [as_key_info]. unfold bind, lift. rewrite Hk. reflexivity.
  - destruct (read_file path) as [b'|] eqn:Hr; [|discriminate Hs].
    injection Hs as ->. cbn [as_key_info]. unfold bind, lift. cbv beta iota delta [ret].
    rewrite Hk. reflexivity.
Qed.

(** [load_pkcs12] up to the parsed container. *)
Lemma load_pkcs12_parsed source password p b ks cs es l w :
  check_password password l w = (Ok p, l, w) ->
  read_source source = Some b ->
  parse_pkcs12 b p = Ok (ks, cs, es) ->
  load_pkcs12 source password l w =
  (key <~
     match ks with
     | k :: _ => a <~ _load_key k ;; ret (Some a)
     | [] => ret None
     end ;;
   cert <~
     match cs with
     | c :: _ => a <~ _load_x509 c ;; ret (Some a)
     | [] => ret None
     end ;;
   extra_certs <~ load_each es ;;
   ret (key, cert, extra_certs)) l w.
Proof.
  intros Hp Hs Hk. unfold load_pkcs12. unfold bind at 1. rewrite Hp.
  destruct source as [| |path| | | |]; try discriminate Hs; cbn in Hs.
  - injection Hs as ->. unfold bind at 1. unfold ret at 1.
    unfold bind at 1. unfold lift. rewrite Hk. reflexivity.
  - destruct (read_file path) as [b'|] eqn:Hr; [|discriminate Hs].
    injection Hs as ->. unfold bind at 1. unfold lift at 1. unfold ret at 1.
    unfold bind at 1. unfold lift. rewrite Hk. reflexivity.
Qed.

Lemma rejected_routes k e :
  (forall l w, check_key k l w = (Raise e, l, w)) ->
  rejected_on_every_route k e.
Proof.
  intros H l w. pose proof (load_key_rejected k e H l w) as Hk.
  split_and!.
  - done.
  - intros password Hc. by rewrite load_private_key_info.
  - intros source password p b Hp Hs Hb.
    by rewrite (load_private_key_source source password p b k).
  - intros Hc. by rewrite load_public_key_info.
  - intros source b Hs Hb. by rewrite (load_public_key_source source b k).
  - intros source password p b ks ci ei Hp Hs Hb.
    rewrite (load_pkcs12_parsed source password p b (k :: ks) ci ei) by done.
    unfold bind at 1. unfold bind at 1. by rewrite Hk.
Qed.

(** C6.  A key whose algorithm is [ec] is loaded only if its curve is
    one of the named curves secp256r1, secp384r1 and secp521r1, and such a
    curve passes the check.  Any other curve, given by explicit parameters
    or by another name, is refused with [PrivateKeyError] on every route to
    [_load_key] ([load_private_key], [load_public_key], the key of a
    PKCS#12 container), with the world unchanged: no call to the framework
    has been made. *)
Theorem ec_curve_checked k :
  algorithm k = "ec" ->
  (forall l w a l' w', _load_key k l w = (Ok a, l', w') -> supported_ec_curve k)
  /\ (supported_ec_curve k -> forall l w, check_key k l w = (Ok tt, l, w))
  /\ (~ supported_ec_curve k ->
      exists msg, rejected_on_every_route k (PrivateKeyError msg)).
Proof.
  intros Halg. destruct (check_key_ec k Halg) as [[Hs Hc]|[Hs [msg Hc]]].
  - split_and!; [done|done|]. by intros [].
  - split_and!.
    + intros l w a l' w' Hl. by rewrite (load_key_rejected k _ Hc) in Hl.
    + done.
    + intros _. exists msg. by apply rejected_routes.
Qed.

(** C7.  A key whose algorithm is [dsa] and whose [hash_algo] is [sha2]
    is refused with [PrivateKeyError] on every route to [_load_key], with
    the world unchanged: no call to the framework has been made.  A DSA
    key with any other hash association, [sha1] among them, passes the
    check. *)
Theorem dsa_sha2_rejected k :
  algorithm k = "dsa" ->
  (hash_algo k = Some "sha2" ->
   exists msg, rejected_on_every_route k (PrivateKeyError msg))
  /\ (hash_algo k <> Some "sha2" -> forall l w, check_key k l w = (Ok tt, l, w)).
Proof.
  intros Halg. destruct (check_key_dsa k Halg) as [[Hs Hc]|[Hs [msg Hc]]].
  - split; [done|]. by intros _.
  - split; [|done]. intros _. exists msg. by apply rejected_routes.
Qed.

(** C9, as the code has it.  A source that is not a byte string, not a
    unicode string and not a public-key structure makes [load_public_key]
    fail before any call to the framework, but with [UnboundLocalError]:
    the message of the intended [ValueError] is built from [public_key],
    which is not bound on that branch. *)
Theorem load_public_key_unbound source l w :
  as_key_info PublicKeyInfo source = None ->
  (forall b, source <> PyBytes b) ->
  (forall s, source <> PyStr s) ->
  load_public_key source l w = (Raise (UnboundLocalError "public_key"), l, w).
Proof.
  intros Hk Hb Hs. unfold load_public_key, bind. rewrite Hk.
  destruct source; try done.
  - by destruct (Hb b).
  - by destruct (Hs s).
Qed.

(** [_load_x509] never fails: no status is checked.  It returns a new
    certificate handle and leaves the other objects as they were. *)
Lemma load_x509_ok c l w :
  exists w',
    _load_x509 c l w = (Ok (next_addr w), l, w')
    /\ next_addr w' = S (next_addr w)
    /\ cert_at (heap w') (next_addr w) c
    /\ (forall a, a <> next_addr w -> heap w' !! a = heap w !! a).
Proof.
  destruct w as [hp na tr ck].
  wp_start_run. wp_run1.
  all: show_post; eexists; split; [reflexivity|]; cbn [next_addr heap].
  all: split_and!; [done|eexists; apply lookup_insert_eq|].
  all: intros a Ha; by apply lookup_insert_ne.
Qed.

Lemma load_each_ok es l w :
  exists w',
    load_each es l w = (Ok (seq (next_addr w) (length es)), l, w')
    /\ next_addr w' = next_addr w + length es
    /\ Forall2 (cert_at (heap w')) (seq (next_addr w) (length es)) es
    /\ (forall a, a < next_addr w -> heap w' !! a = heap w !! a).
Proof.
  revert w. induction es as [|c es IH]; intros w.
  - exists w. cbn. split_and!; [done|lia|constructor|done].
  - destruct (load_x509_ok c l w) as (w1 & H1 & Hn1 & Hc1 & Hf1).
    destruct (IH w1) as (w2 & H2 & Hn2 & Hc2 & Hf2).
    exists w2. cbn [load_each length seq]. split_and!.
    + unfold bind at 1. rewrite H1. unfold bind at 1. rewrite H2, Hn1. reflexivity.
    + lia.
    + constructor; [|by rewrite <- Hn1].
      destruct Hc1 as [r Hr]. exists r. rewrite Hf2 by lia. done.
    + intros a Ha. rewrite Hf2 by lia. apply Hf1. lia.
Qed.

(** C10.  Once the container is parsed, [load_pkcs12] fails only if
    loading the private key does.  Otherwise it returns a bundle whose key
    slot is empty exactly when the container has no key and whose
    certificate slot is empty exactly when it has no certificate; the extra
    certificates are handles for the decoded ones, one for each and in the
    decoder's order. *)
Theorem pkcs12_bundle source password p b ks cs es l w :
  check_password password l w = (Ok p, l, w) ->
  read_source source = Some b ->
  parse_pkcs12 b p = Ok (ks, cs, es) ->
  match ks with
  | [] =>
      exists cert extras w',
        load_pkcs12 source password l w = (Ok (None, cert, extras), l, w')
        /\ cert_slot (heap w') cert cs
        /\ Forall2 (cert_at (heap w')) extras es
  | k :: _ =>
      match _load_key k l w with
      | (Raise e, l1, w1) => load_pkcs12 source password l w = (Raise e, l1, w1)
      | (Ok ka, l1, w1) =>
          exists cert extras w',
            load_pkcs12 source password l w = (Ok (Some ka, cert, extras), l1, w')
            /\ cert_slot (heap w') cert cs
            /\ Forall2 (cert_at (heap w')) extras es
      end
  end.
Proof.
  intros Hp Hs Hk.
  rewrite (load_pkcs12_parsed source password p b ks cs es) by done.
  assert (Hrest : forall (key : option addr) l1 w1,
    exists cert extras w',
      (cert <~
         match cs with
         | c :: _ => a <~ _load_x509 c ;; ret (Some a)
         | [] => ret None
         end ;;
       extra_certs <~ load_each es ;;
       ret (key, cert, extra_certs)) l1 w1 = (Ok (key, cert, extras), l1, w')
      /\ (forall a, a < next_addr w1 -> heap w' !! a = heap w1 !! a)
      /\ cert_slot (heap w') cert cs
      /\ Forall2 (cert_at (heap w')) extras es).
  { intros key l1 w1. destruct cs as [|c cs'].
    - destruct (load_each_ok es l1 w1) as (w2 & H2 & Hn2 & Hc2 & Hf2).
      exists None, (seq (next_addr w1) (length es)), w2. split_and!; try done.
      unfold bind at 1. unfold ret at 1. unfold bind at 1. by rewrite H2.
    - destruct (load_x509_ok c l1 w1) as (w2 & H2 & Hn2 & Hc2 & Hf2).
      destruct (load_each_ok es l1 w2) as (w3 & H3 & Hn3 & Hc3 & Hf3).
      exists (Some (next_addr w1)), (seq (next_addr w2) (length es)), w3.
      split_and!; try done.
      + unfold bind at 1. unfold bind at 1. rewrite H2. unfold ret at 1.
        unfold bind at 1. by rewrite H3.
      + intros a Ha. rewrite Hf3 by lia. apply Hf2. lia.
      + exists (next_addr w1). split; [done|].
        destruct Hc2 as [r Hr]. exists r. rewrite Hf3 by lia. done. }
  destruct ks as [|k ks'].
  - destruct (Hrest None l w) as (cert & extras & w' & H & _ & Hc & He).
    exists cert, extras, w'. split_and!; done.
  - destruct (_load_key k l w) as [[[ka|e] l1] w1] eqn:Hl.
    + destruct (Hrest (Some ka) l1 w1) as (cert & extras & w' & H & Hf & Hc & He).
      exists cert, extras, w'. split_and!; try done.
      unfold bind at 1. unfold bind at 1. rewrite Hl. done.
    + unfold bind at 1. unfold bind at 1. by rewrite Hl.
Qed.

(** ** Unsupported hash names *)

Lemma verify_refuses key signature data h l w :
  h ∉ hash_names -> refuses (_verify key signature data h) l w.
Proof.
  intros Hh. unfold refuses, _verify. rewrite (bool_decide_eq_false_2 _ Hh).
  destruct w as [hp na tr ck].
  wp_start_run. wp_run0.
  all: show_post; eexists; reflexivity.
Qed.

Lemma sign_refuses key data h l w :
  h ∉ hash_names -> refuses (_sign key data h) l w.
Proof.
  intros Hh. unfold refuses, _sign. rewrite (bool_decide_eq_false_2 _ Hh).
  destruct w as [hp na tr ck].
  wp_start_run. wp_run0.
  all: show_post; eexists; reflexivity.
Qed.

Lemma expect_algo_refuses {A} key name msg (body : M A) l w :
  (forall l w, refuses body l w) ->
  isinstance_PrivateKey (heap w) key = true ->
  refuses (expect_algo key name msg ;;; body) l w.
Proof.
  intros Hbody Hkey. unfold refuses.
  destruct key as [| | | | | |a]; try discriminate Hkey. cbn in Hkey.
  unfold expect_algo, get_algo, key_attribute, load, bind.
  destruct (heap w !! a) as [[r k|r k|]|]; try discriminate Hkey.
  all: cbv beta iota delta [ret when raise]; case_bool_decide; eauto.
  all: apply Hbody.
Qed.

Lemma expect_algo_fails {A} key name msg (body : M A) l w :
  (forall l w, refuses body l w) ->
  fails_early (expect_algo key name msg ;;; body) l w.
Proof.
  intros Hbody. unfold fails_early.
  destruct w as [hp na tr ck]. cbn [trace].
  wp_start_run. unfold expect_algo, get_algo. wp_run.
  all: try match goal with
           | |- wp ?b _ ?l' ?w' =>
               is_var b; unfold wp; destruct (Hbody l' w') as [? ->]
           end.
  all: show_post; do 2 eexists; split; [reflexivity|]; split; [trace_eq|].
  all: split; [first [by left | right; by do 3 eexists]|].
  all: observe_all.
  all: split; [leaf|].
  all: let H := fresh in intros H; first [contra | by left; eexists | by right].
Qed.

(** On a handle that gives a key the attribute is there to read. *)
Lemma expect_algo_handle {A} a k name msg (body : M A) l w :
  (forall l w, refuses body l w) ->
  key_info_of (heap w) a = Some k ->
  a <> next_addr w ->
  refuses_or_fails_deriving (expect_algo (PyObj a) name msg ;;; body) l w.
Proof.
  intros Hbody Hk Hn. unfold refuses_or_fails_deriving.
  destruct w as [hp na tr ck]. cbn [trace heap next_addr] in *.
  handle_shapes Hk.
  all: wp_start_run; unfold expect_algo, get_algo; wp_run2.
  all: try match goal with
           | |- wp ?b _ ?l' ?w' =>
               is_var b; unfold wp; destruct (Hbody l' w') as [? ->]
           end.
  all: show_post; eexists; split; [trace_eq|].
  all: split; [first [by left | right; by do 3 eexists]|].
  all: observe_all.
  all: first [ left; split; [reflexivity|]; eexists; reflexivity
             | right; solve [leaf] ].
Qed.

Lemma pss_hash_length_unknown h : h ∉ hash_names -> pss_hash_length h = 0%Z.
Proof.
  pure.
  unfold hash_names. intros Hh.
  assert (h <> "sha1" /\ h <> "sha224" /\ h <> "sha256" /\ h <> "sha384" /\ h <> "sha512")
    as (? & ? & ? & ? & ?) by set_solver.
  unfold pss_hash_length, pss_hash_lengths. cbn [list_to_map foldr fst snd].
  by rewrite !lookup_insert_ne, lookup_empty by done.
Qed.


Lemma pss_sign_route a r k d h l w :
  heap w !! a = Some (PrivateKey r k) ->
  algorithm k = "rsa" ->
  rsa_pss_sign (PyObj a) (PyBytes d) h l w =
  match add_pss_padding h (pss_hash_length h) (bit_size k) d with
  | Ok enc => _decrypt (PyObj a) (PyBytes enc) (Some kSecPaddingNoneKey) l w
  | Raise e => (Raise e, l, w)
  end.
Proof.
  intros Hkey Halg.
  unfold rsa_pss_sign, expect_algo, get_algo, get_bit_size, key_attribute,
    expect_bytes, isinstance_PrivateKey.
  cbv beta iota zeta delta [bind get_heap when ret raise load lift negb].
  do 2 (rewrite Hkey; cbv beta iota). rewrite Halg.
  rewrite bool_decide_eq_false_2 by (by intros ?).
  cbv beta iota. rewrite Hkey. cbv beta iota.
  by destruct (add_pss_padding h (pss_hash_length h) (bit_size k) d).
Qed.

Lemma pss_verify_goes_native a r k s d h l w :
  heap w !! a = Some (PublicKey r k) ->
  algorithm k = "rsa" ->
  exists e new,
    trace (rsa_pss_verify (PyObj a) (PyBytes s) (PyBytes d) h l w).2
    = trace w ++ e :: new
    /\ ev_call e = cf_data_from_bytes s.
Proof.
  destruct w as [hp na tr ck]. cbn [trace heap]. intros Hkey Halg.
  wp_start_run. wp_run1.
  all: try by (exfalso;
               match goal with
               | H : bool_decide (_ <> _) = true |- _ =>
                   apply (bool_decide_eq_true_1 _) in H; apply H
               end).
  all: show_post; do 2 eexists.
  all: split; [cbn [snd trace]; rewrite <- ?app_assoc; cbn [app]; reflexivity|reflexivity].
Qed.




(** C1, as the code has it.  For a hash name outside the set, [_sign]
    and [_verify] fail with [ValueError] before any call to the
    framework.  The six entry points built on them read [algo] off the key
    first.  On a key handle they fail with [ValueError] and make no call.
    On any handle that gives a key, a certificate included, they make no
    call other than the derivation of the certificate's public key, which
    the first read of an attribute triggers, and fail with [ValueError],
    unless that call failed: then they fail with [OSError].  On any
    argument at all they fail, with one of these or with [AttributeError],
    and make no other call.  [rsa_pss_sign] and [rsa_pss_verify] do not
    check the name.  [rsa_pss_sign] hands it, with the length 0, to
    [add_pss_padding]: it makes no call if that raises, and goes on to the
    native decryption if it does not.  [rsa_pss_verify] starts the native
    raw encryption of the signature before [verify_pss_padding] is given
    the name. *)
Theorem unknown_hash_rejected h key signature data l w :
  h ∉ hash_names ->
  refuses (_sign key data h) l w
  /\ refuses (_verify key signature data h) l w
  /\ (fails_early (rsa_pkcs1v15_sign key data h) l w
      /\ fails_early (dsa_sign key data h) l w
      /\ fails_early (ecdsa_sign key data h) l w
      /\ fails_early (rsa_pkcs1v15_verify key signature data h) l w
      /\ fails_early (dsa_verify key signature data h) l w
      /\ fails_early (ecdsa_verify key signature data h) l w)
  /\ (isinstance_PrivateKey (heap w) key = true ->
      refuses (rsa_pkcs1v15_sign key data h) l w
      /\ refuses (dsa_sign key data h) l w
      /\ refuses (ecdsa_sign key data h) l w
      /\ refuses (rsa_pkcs1v15_verify key signature data h) l w
      /\ refuses (dsa_verify key signature data h) l w
      /\ refuses (ecdsa_verify key signature data h) l w)
  /\ (forall a k,
        key_info_of (heap w) a = Some k ->
        a < next_addr w ->
        refuses_or_fails_deriving (rsa_pkcs1v15_sign (PyObj a) data h) l w
        /\ refuses_or_fails_deriving (dsa_sign (PyObj a) data h) l w
        /\ refuses_or_fails_deriving (ecdsa_sign (PyObj a) data h) l w
        /\ refuses_or_fails_deriving (rsa_pkcs1v15_verify (PyObj a) signature data h) l w
        /\ refuses_or_fails_deriving (dsa_verify (PyObj a) signature data h) l w
        /\ refuses_or_fails_deriving (ecdsa_verify (PyObj a) signature data h) l w)
  /\ (forall a r k d,
        heap w !! a = Some (PrivateKey r k) ->
        algorithm k = "rsa" ->
        rsa_pss_sign (PyObj a) (PyBytes d) h l w =
        match add_pss_padding h 0 (bit_size k) d with
        | Ok enc => _decrypt (PyObj a) (PyBytes enc) (Some kSecPaddingNoneKey) l w
        | Raise e => (Raise e, l, w)
        end)
  /\ (forall a r k s d,
        heap w !! a = Some (PublicKey r k) ->
        algorithm k = "rsa" ->
        exists e new,
          trace (rsa_pss_verify (PyObj a) (PyBytes s) (PyBytes d) h l w).2
          = trace w ++ e :: new
          /\ ev_call e = cf_data_from_bytes s).
Proof.
  intros Hh.
  assert (Hs : forall key l w, refuses (_sign key data h) l w)
    by (intros; by apply sign_refuses).
  assert (Hv : forall key l w, refuses (_verify key signature data h) l w)
    by (intros; by apply verify_refuses).
  split_and!; try done.
  1-6: by apply expect_algo_fails.
  - intros Hkey. split_and!; by apply expect_algo_refuses.
  - intros a k Hk Ha. assert (a <> next_addr w) by lia.
    split_and!; by apply (expect_algo_handle a k).
  - intros a r k d Hkey Halg.
    rewrite (pss_sign_route a r k) by done.
    by rewrite pss_hash_length_unknown.
  - intros a r k s d Hkey Halg. by apply (pss_verify_goes_native a r k).
Qed.


(** ** Further properties *)




(** *** The result of the transform *)

Lemma encrypt_output_kept key data padding l w :
  exists new,
    trace (_encrypt key data padding l w).2 = trace w ++ new
    /\ NoDup (released new ++ produced new)
    /\ (forall out, (_encrypt key data padding l w).1.1 = Ok out ->
                    length (produced new) = 1).
Proof.
  destruct w as [hp na tr ck]. cbn [trace].
  wp_start_run. wp_run.
  all: show_post; eexists; (split; [trace_eq|]).
  all: observe_all.
  all: leaf.
Qed.

Lemma decrypt_output_kept key data padding l w :
  exists new,
    trace (_decrypt key data padding l w).2 = trace w ++ new
    /\ NoDup (released new ++ produced new)
    /\ (forall out, (_decrypt key data padding l w).1.1 = Ok out ->
                    length (produced new) = 1).
Proof.
  destruct w as [hp na tr ck]. cbn [trace].
  wp_start_run. wp_run.
  all: show_post; eexists; (split; [trace_eq|]).
  all: observe_all.
  all: leaf.
Qed.

(** [_encrypt] and [_decrypt] never release the object that
    [SecTransformExecute] hands back: no reference produced by the
    execution is among those released, and a call that returns has
    produced one.  [_sign] releases the one it gets. *)
Theorem transform_output_not_released key data padding h l w :
  (exists new,
     trace (_encrypt key data padding l w).2 = trace w ++ new
     /\ (forall r, r ∈ produced new -> r ∉ released new)
     /\ (forall out, (_encrypt key data padding l w).1.1 = Ok out ->
                     length (produced new) = 1))
  /\ (exists new,
     trace (_decrypt key data padding l w).2 = trace w ++ new
     /\ (forall r, r ∈ produced new -> r ∉ released new)
     /\ (forall out, (_decrypt key data padding l w).1.1 = Ok out ->
                     length (produced new) = 1))
  /\ (exists new,
     trace (_sign key data h l w).2 = trace w ++ new
     /\ (forall r, r ∈ produced new -> r ∈ released new)).
Proof.
  split_and!.
  - destruct (encrypt_output_kept key data padding l w) as (new & Ht & Hn & Ho).
    exists new. split_and!; [done| |done].
    apply NoDup_app in Hn as (_ & Hn & _). intros r Hp Hr. by apply (Hn r).
  - destruct (decrypt_output_kept key data padding l w) as (new & Ht & Hn & Ho).
    exists new. split_and!; [done| |done].
    apply NoDup_app in Hn as (_ & Hn & _). intros r Hp Hr. by apply (Hn r).
  - destruct (cleanup_sign key data h l w) as (new & Ht & Hr & _).
    exists new. split; [done|]. intros r Hp. rewrite Hr.
    rewrite !elem_of_app. tauto.
Qed.

(** *** Handles *)

(** After its teardown a key handle holds no reference, and the module
    does not refuse it: [_encrypt] on a released public key, [_decrypt] on
    a released private key build their transform on NULL. *)
Theorem released_handle_passes_null a b rv kv rs ks d p l w :
  heap w !! a = Some (PublicKey rv kv) ->
  heap w !! b = Some (PrivateKey rs ks) ->
  (exists w1,
     release_handle a l w = (Ok tt, l, w1)
     /\ heap w1 !! a = Some (PublicKey None kv)
     /\ exists new,
          trace (_encrypt (PyObj a) (PyBytes d) (Some p) l w1).2 = trace w1 ++ new
          /\ collect transform_call_of new = [SecEncryptTransformCreate None])
  /\ (exists w1,
     release_handle b l w = (Ok tt, l, w1)
     /\ heap w1 !! b = Some (PrivateKey None ks)
     /\ exists new,
          trace (_decrypt (PyObj b) (PyBytes d) (Some p) l w1).2 = trace w1 ++ new
          /\ collect transform_call_of new = [SecDecryptTransformCreate None]).
Proof.
  destruct w as [hp na tr ck]. cbn [heap]. intros Ha Hb. split.
  - destruct rv as [r|].
    all: eexists; split; [eval_run; rewrite ?Ha; eval_run; reflexivity|].
    all: cbn [heap]; rewrite ?lookup_insert_eq; split; [done|].
    all: wp_start_run; wp_run2.
    all: show_post; eexists; (split; [trace_eq|]).
    all: observe_all; reflexivity.
  - destruct rs as [r|].
    all: eexists; split; [eval_run; rewrite ?Hb; eval_run; reflexivity|].
    all: cbn [heap]; rewrite ?lookup_insert_eq; split; [done|].
    all: wp_start_run; wp_run2.
    all: show_post; eexists; (split; [trace_eq|]).
    all: observe_all; reflexivity.
Qed.

(** The public key of a certificate is derived on the first read and kept:
    the first read makes one call and, if it succeeds, builds a
    [PublicKey] for the subject public key of the certificate; the next
    read makes no call and gives the same object.  If the call fails the
    read fails with [OSError] and nothing is kept. *)
Theorem public_key_derived_once a cr c l w :
  heap w !! a = Some (Certificate (Some cr) c None) ->
  a < next_addr w ->
  (ok (oracle (clock w) (SecCertificateCopyPublicKey (Some cr))) = true ->
   exists w1,
     Certificate_public_key a l w = (Ok (Some (next_addr w)), l, w1)
     /\ heap w1 !! next_addr w
        = Some (PublicKey (Some (clock w)) (subject_public_key_info c))
     /\ trace w1 = trace w ++ [Ev (SecCertificateCopyPublicKey (Some cr))
                                  (oracle (clock w) (SecCertificateCopyPublicKey (Some cr)))
                                  (Some (clock w))]
     /\ Certificate_public_key a l w1 = (Ok (Some (next_addr w)), l, w1))
  /\ (ok (oracle (clock w) (SecCertificateCopyPublicKey (Some cr))) = false ->
      exists w1,
        Certificate_public_key a l w = (Raise OSError, l, w1)
        /\ heap w1 = heap w
        /\ trace w1 = trace w ++ [Ev (SecCertificateCopyPublicKey (Some cr))
                                     (oracle (clock w) (SecCertificateCopyPublicKey (Some cr)))
                                     None]).
Proof.
  destruct w as [hp na tr ck]. cbn [heap next_addr clock trace].
  intros Ha Hlt. assert (a <> na) as Hn by lia.
  unfold Certificate_public_key, handle_sec_error.
  split; intros Hok.
  - exists {| heap := <[a := Certificate (Some cr) c (Some na)]>
                        (<[na := PublicKey (Some ck) (subject_public_key_info c)]> hp);
              next_addr := S na;
              trace := tr ++ [Ev (SecCertificateCopyPublicKey (Some cr))
                                 (oracle ck (SecCertificateCopyPublicKey (Some cr)))
                                 (Some ck)];
              clock := S ck |}.
    split_and!.
    + cbv beta iota zeta delta [bind load native new_obj update ret raise
        heap next_addr trace clock fst snd].
      unfold addr in *. rewrite Ha. cbn [truthy negb andb creates]. rewrite Hok.
      reflexivity.
    + cbn [heap]. by rewrite lookup_insert_ne, lookup_insert_eq.
    + reflexivity.
    + cbv beta iota zeta delta [bind load native new_obj update ret raise
        heap next_addr trace clock fst snd].
      unfold addr in *. rewrite lookup_insert_eq. reflexivity.
  - exists {| heap := hp; next_addr := na;
              trace := tr ++ [Ev (SecCertificateCopyPublicKey (Some cr))
                                 (oracle ck (SecCertificateCopyPublicKey (Some cr)))
                                 None];
              clock := S ck |}.
    split_and!; [|reflexivity..].
    cbv beta iota zeta delta [bind load native new_obj update ret raise
      heap next_addr trace clock fst snd].
    unfold addr in *. rewrite Ha. cbn [truthy negb andb creates]. rewrite Hok.
    reflexivity.
Qed.

(** *** Loading a key *)

Ltac observe_load :=
  cbn [app fst snd]; cbn [collect app]; rewrite ?collect_app;
  observe_all; cbn [picked app ev_call ev_ret ev_resp wrapped_of built_of].

Ltac class_known Hc :=
  first [ rewrite !(bool_decide_eq_true_2 _ Hc);
          rewrite (bool_decide_eq_true_2 (kSecAttrKeyClassPublic = kSecAttrKeyClassPublic))
            by reflexivity
        | rewrite !(bool_decide_eq_false_2 _ Hc);
          rewrite (bool_decide_eq_false_2 (kSecAttrKeyClassPrivate = kSecAttrKeyClassPublic))
            by discriminate ].

(** [_load_key], once the checks have passed.  Whatever it wrapped, the
    source and the attribute dictionary, it releases once, on every exit.
    An algorithm outside rsa, dsa and ec ends in [KeyError] before the key
    is built.  Otherwise the call that builds the key is made once: if it
    fails the outcome is [OSError] and no handle is made; if not, the
    outcome is a new handle around the reference it returned, a
    [PublicKey] for a public-key structure and a [PrivateKey] for any
    other. *)
Theorem load_key_outcome k l w :
  (forall l w, check_key k l w = (Ok tt, l, w)) ->
  exists new,
    trace (_load_key k l w).2 = trace w ++ new
    /\ released new = collect wrapped_of new
    /\ NoDup (released new)
    /\ match key_types !! algorithm k with
       | None =>
           (_load_key k l w).1.1 = Raise (KeyError (algorithm k))
           /\ heap (_load_key k l w).2 = heap w
           /\ collect built_of new = []
       | Some _ =>
           (failures new <> []
            /\ (_load_key k l w).1.1 = Raise OSError
            /\ heap (_load_key k l w).2 = heap w)
           \/ (failures new = []
               /\ (_load_key k l w).1.1 = Ok (next_addr w)
               /\ exists r,
                    collect built_of new = [r]
                    /\ heap (_load_key k l w).2
                       = <[next_addr w := key_handle k r]> (heap w))
       end.
Proof.
  intros Hcheck. destruct w as [hp na tr ck]. cbn [trace heap next_addr].
  unfold key_handle.
  wp_start_run. unfold _load_key. cbv zeta.
  apply wp_fn, wp_bind. unfold wp at 1. rewrite Hcheck.
  destruct (decide (key_class k = PublicKeyInfo)) as [Hc|Hc]; class_known Hc.
  all: destruct (key_types !! algorithm k) as [t|] eqn:Ht.
  all: wp_run.
  all: show_post; eexists; (split; [trace_eq|]).
  all: observe_load; cbn [heap snd].
  all: rewrite ?(bool_decide_eq_true_2 _ Hc), ?(bool_decide_eq_false_2 _ Hc).
  all: split; [reflexivity|]; split; [leaf|].
  all: first [ solve [leaf] | left; solve [leaf] | right; solve [leaf] ].
Qed.


(** *** Encryption and decryption *)

Ltac observe_crypt :=
  observe_all; cbn [picked app ev_call ev_ret ev_resp direct_of].

Lemma pkcs1v15_encrypt_on_handle a k d l w :
  isinstance_Certificate_PublicKey (heap w) (PyObj a) = true ->
  key_info_of (heap w) a = Some k ->
  a <> next_addr w ->
  exists new,
    trace (rsa_pkcs1v15_encrypt (PyObj a) (PyBytes d) l w).2 = trace w ++ new
    /\ collect transform_call_of new = []
    /\ released new = []
    /\ ((failures new <> []
         /\ (rsa_pkcs1v15_encrypt (PyObj a) (PyBytes d) l w).1.1 = Raise OSError)
        \/ (failures new = []
            /\ exists r out,
                 collect direct_of new
                 = [(SecKeyEncrypt r kSecPaddingPKCS1 d (byte_size k), out)]
                 /\ (rsa_pkcs1v15_encrypt (PyObj a) (PyBytes d) l w).1.1 = Ok out)).
Proof.
  destruct w as [hp na tr ck]. cbn [trace heap next_addr].
  intros Hi Hk Hn. cbn [isinstance_Certificate_PublicKey] in Hi.
  handle_shapes Hk; try discriminate Hi; clear Hi.
  all: wp_start_run; unfold rsa_pkcs1v15_encrypt, get_byte_size, get_sec_key_ref.
  all: wp_run2.
  all: show_post; eexists; (split; [trace_eq|]).
  all: observe_crypt.
  all: split; [reflexivity|]; split; [reflexivity|].
  all: either_leaf.
Qed.

Lemma pkcs1v15_decrypt_on_handle a k d l w :
  isinstance_PrivateKey (heap w) (PyObj a) = true ->
  key_info_of (heap w) a = Some k ->
  exists new,
    trace (rsa_pkcs1v15_decrypt (PyObj a) (PyBytes d) l w).2 = trace w ++ new
    /\ collect transform_call_of new = []
    /\ released new = []
    /\ ((failures new <> []
         /\ (rsa_pkcs1v15_decrypt (PyObj a) (PyBytes d) l w).1.1 = Raise OSError)
        \/ (failures new = []
            /\ exists r out,
                 collect direct_of new
                 = [(SecKeyDecrypt r kSecPaddingPKCS1 d (byte_size k), out)]
                 /\ (rsa_pkcs1v15_decrypt (PyObj a) (PyBytes d) l w).1.1 = Ok out)).
Proof.
  destruct w as [hp na tr ck]. cbn [trace heap next_addr].
  intros Hi Hk. cbn [isinstance_PrivateKey] in Hi.
  handle_shapes Hk; try discriminate Hi; clear Hi.
  all: wp_start_run; unfold rsa_pkcs1v15_decrypt, get_byte_size, get_sec_key_ref.
  all: wp_run2.
  all: show_post; eexists; (split; [trace_eq|]).
  all: observe_crypt.
  all: split; [reflexivity|]; split; [reflexivity|].
  all: either_leaf.
Qed.

(** PKCS#1 v1.5 encryption and decryption go to the framework in one
    direct call, [SecKeyEncrypt] or [SecKeyDecrypt], with the padding
    [kSecPaddingPKCS1], the data as given and the byte size of the key as
    the size of the buffer.  No transform is built and nothing is
    released.  The outcome is the bytes of that call, or [OSError] if it,
    or the derivation of a certificate's key before it, failed. *)
Theorem pkcs1v15_is_direct a b ka kb d l w :
  (isinstance_Certificate_PublicKey (heap w) (PyObj a) = true ->
   key_info_of (heap w) a = Some ka ->
   a < next_addr w ->
   exists new,
     trace (rsa_pkcs1v15_encrypt (PyObj a) (PyBytes d) l w).2 = trace w ++ new
     /\ collect transform_call_of new = []
     /\ released new = []
     /\ ((failures new <> []
          /\ (rsa_pkcs1v15_encrypt (PyObj a) (PyBytes d) l w).1.1 = Raise OSError)
         \/ (failures new = []
             /\ exists r out,
                  collect direct_of new
                  = [(SecKeyEncrypt r kSecPaddingPKCS1 d (byte_size ka), out)]
                  /\ (rsa_pkcs1v15_encrypt (PyObj a) (PyBytes d) l w).1.1 = Ok out)))
  /\ (isinstance_PrivateKey (heap w) (PyObj b) = true ->
      key_info_of (heap w) b = Some kb ->
      exists new,
        trace (rsa_pkcs1v15_decrypt (PyObj b) (PyBytes d) l w).2 = trace w ++ new
        /\ collect transform_call_of new = []
        /\ released new = []
        /\ ((failures new <> []
             /\ (rsa_pkcs1v15_decrypt (PyObj b) (PyBytes d) l w).1.1 = Raise OSError)
            \/ (failures new = []
                /\ exists r out,
                     collect direct_of new
                     = [(SecKeyDecrypt r kSecPaddingPKCS1 d (byte_size kb), out)]
                     /\ (rsa_pkcs1v15_decrypt (PyObj b) (PyBytes d) l w).1.1 = Ok out))).
Proof.
  split.
  - intros Hi Hk Hlt. apply pkcs1v15_encrypt_on_handle; [done|done|lia].
  - intros Hi Hk. by apply pkcs1v15_decrypt_on_handle.
Qed.





(** *** Signing and verification *)

Ltac padding_known :=
  unfold padding_for;
  try match goal with
      | H : bool_decide (algorithm _ = _) = _ |- _ => rewrite H
      end.

Lemma sign_padding a k d h c ob l w :
  isinstance_PrivateKey (heap w) (PyObj a) = true ->
  key_info_of (heap w) a = Some k ->
  spec_digest h = Some (c, ob) ->
  exists new,
    trace (_sign (PyObj a) (PyBytes d) h l w).2 = trace w ++ new
    /\ (failures new = [] -> collect padding_of new = padding_for k).
Proof.
  destruct w as [hp na tr ck]. cbn [trace heap next_addr].
  intros Hi Hk Hspec. cbn [isinstance_PrivateKey] in Hi.
  handle_shapes Hk; try discriminate Hi; clear Hi.
  all: digest_known _sign Hspec.
  all: wp_run2.
  all: show_post; eexists; (split; [trace_eq|]).
  all: observe_handle; cbn [padding_of]; padding_known.
  all: leaf.
Qed.

Lemma verify_padding a k s d h c ob l w :
  isinstance_Certificate_PublicKey (heap w) (PyObj a) = true ->
  key_info_of (heap w) a = Some k ->
  a <> next_addr w ->
  spec_digest h = Some (c, ob) ->
  exists new,
    trace (_verify (PyObj a) (PyBytes s) (PyBytes d) h l w).2 = trace w ++ new
    /\ (failures new = [] -> collect padding_of new = padding_for k).
Proof.
  destruct w as [hp na tr ck]. cbn [trace heap next_addr].
  intros Hi Hk Hn Hspec. cbn [isinstance_Certificate_PublicKey] in Hi.
  handle_shapes Hk; try discriminate Hi; clear Hi.
  all: digest_known _verify Hspec.
  all: wp_run2.
  all: show_post; eexists; (split; [trace_eq|]).
  all: observe_handle; cbn [padding_of]; padding_known.
  all: leaf.
Qed.

(** [_sign] and [_verify] set a padding attribute for an RSA key only,
    and to PKCS#1 v1.5: in a run in which no checked call fails the
    padding is set once, to [kSecPaddingPKCS1Key], if the key is an RSA
    key, and not at all if it is a DSA or an EC key. *)
Theorem padding_for_rsa_only a b ka kb s d h l w :
  h ∈ hash_names ->
  (isinstance_PrivateKey (heap w) (PyObj a) = true ->
   key_info_of (heap w) a = Some ka ->
   exists new,
     trace (_sign (PyObj a) (PyBytes d) h l w).2 = trace w ++ new
     /\ (failures new = [] -> collect padding_of new = padding_for ka))
  /\ (isinstance_Certificate_PublicKey (heap w) (PyObj b) = true ->
      key_info_of (heap w) b = Some kb ->
      b < next_addr w ->
      exists new,
        trace (_verify (PyObj b) (PyBytes s) (PyBytes d) h l w).2 = trace w ++ new
        /\ (failures new = [] -> collect padding_of new = padding_for kb)).
Proof.
  intros Hh. apply spec_digest_names in Hh as [[c ob] Hspec]. split.
  - intros Hi Hk. by apply (sign_padding a ka d h c ob).
  - intros Hi Hk Hlt. apply (verify_padding b kb s d h c ob); [done|done|lia|done].
Qed.

Ltac algo_cases :=
  repeat match goal with
         | H : bool_decide (algorithm _ <> _) = true |- _ =>
             apply (bool_decide_eq_true_1 _) in H
         | H : bool_decide (algorithm _ <> _) = false |- _ =>
             apply (bool_decide_eq_false_1 _) in H
         end.

Lemma expect_algo_mismatch {A} a k name msg (body : M A) l w :
  isinstance_PrivateKey (heap w) (PyObj a) = true ->
  key_info_of (heap w) a = Some k ->
  algorithm k <> name ->
  refuses (expect_algo (PyObj a) name msg ;;; body) l w.
Proof.
  destruct w as [hp na tr ck]. cbn [heap]. intros Hi Hk Hne.
  cbn [isinstance_PrivateKey] in Hi. unfold refuses.
  handle_shapes Hk; try discriminate Hi; clear Hi.
  all: wp_start_run; unfold expect_algo, get_algo; wp_run2.
  all: algo_cases; try contradiction.
  all: show_post; eexists; reflexivity.
Qed.

Lemma pss_mismatch a k signature data h l w :
  isinstance_PrivateKey (heap w) (PyObj a) = true ->
  key_info_of (heap w) a = Some k ->
  algorithm k <> "rsa" ->
  refuses (rsa_pss_sign (PyObj a) data h) l w
  /\ refuses (rsa_pss_verify (PyObj a) signature data h) l w.
Proof.
  destruct w as [hp na tr ck]. cbn [heap]. intros Hi Hk Hne.
  cbn [isinstance_PrivateKey] in Hi. unfold refuses.
  handle_shapes Hk; try discriminate Hi; clear Hi.
  all: split.
  all: wp_start_run; unfold expect_algo, get_algo; wp_run2.
  all: algo_cases; try contradiction.
  all: show_post; eexists; reflexivity.
Qed.

(** An entry point given a key of another algorithm than the one it
    names refuses with [ValueError] before any call to the framework,
    whatever the data and the hash name. *)
Theorem wrong_algorithm_refused a k signature data h l w :
  isinstance_PrivateKey (heap w) (PyObj a) = true ->
  key_info_of (heap w) a = Some k ->
  (algorithm k <> "rsa" ->
   refuses (rsa_pkcs1v15_sign (PyObj a) data h) l w
   /\ refuses (rsa_pkcs1v15_verify (PyObj a) signature data h) l w
   /\ refuses (rsa_pss_sign (PyObj a) data h) l w
   /\ refuses (rsa_pss_verify (PyObj a) signature data h) l w)
  /\ (algorithm k <> "dsa" ->
      refuses (dsa_sign (PyObj a) data h) l w
      /\ refuses (dsa_verify (PyObj a) signature data h) l w)
  /\ (algorithm k <> "ec" ->
      refuses (ecdsa_sign (PyObj a) data h) l w
      /\ refuses (ecdsa_verify (PyObj a) signature data h) l w).
Proof.
  intros Hi Hk. split_and!; intros Hne; split_and!.
  all: try by apply (expect_algo_mismatch a k).
  all: by apply (pss_mismatch a k signature data h).
Qed.

(** *** Arguments of the loaders *)

(** The loaders check the password before the source, and report either
    with a [ValueError] that names the class of the argument, before any
    call; a private-key structure is loaded without a look at the password.
    A failure to read or to parse the source is the outcome as it is.
    [load_certificate] reports a source of a wrong type in the same way. *)
Theorem loader_arguments source password l w :
  (password_ok password = false ->
   (as_key_info PrivateKeyInfo source = None ->
    load_private_key source password l w
    = (Raise (ValueError ("password must be a byte string, not "
                          ++ class_name (heap w) password)%string), l, w))
   /\ load_pkcs12 source password l w
      = (Raise (ValueError ("password must be a byte string, not "
                            ++ class_name (heap w) password)%string), l, w))
  /\ (forall k, source = PyKeyInfo k -> key_class k = PrivateKeyInfo ->
                load_private_key source password l w = _load_key k l w)
  /\ (password_ok password = true ->
      (forall b, source <> PyBytes b) -> (forall s, source <> PyStr s) ->
      (as_key_info PrivateKeyInfo source = None ->
       load_private_key source password l w
       = (Raise (ValueError
            ("source must be a byte string, unicode string or asn1crypto.keys.PrivateKeyInfo object, not "
             ++ class_name (heap w) source)%string), l, w))
      /\ load_pkcs12 source password l w
         = (Raise (ValueError
              ("source must be a byte string or a unicode string, not "
               ++ class_name (heap w) source)%string), l, w))
  /\ (forall p e,
        check_password password l w = (Ok p, l, w) ->
        (forall b, read_source source = Some b -> parse_private b p = Raise e ->
                   load_private_key source password l w = (Raise e, l, w))
        /\ (forall b, read_source source = Some b -> parse_pkcs12 b p = Raise e ->
                      load_pkcs12 source password l w = (Raise e, l, w)))
  /\ ((forall b, source <> PyBytes b) -> (forall s, source <> PyStr s) ->
      (forall c, source <> PyCertInfo c) ->
      load_certificate source l w
      = (Raise (ValueError
           ("source must be a byte string, unicode string or asn1crypto.x509.Certificate object, not "
            ++ class_name (heap w) source)%string), l, w)).
Proof.
  split_and!.
  - intros Hp. split.
    + intros Hs. unfold load_private_key. rewrite Hs.
      destruct password; try discriminate Hp; reflexivity.
    + unfold load_pkcs12. destruct password; try discriminate Hp; reflexivity.
  - intros k -> Hk. by apply load_private_key_info.
  - intros Hp Hb Hs. split.
    + intros Hi. unfold load_private_key. rewrite Hi.
      destruct password; try discriminate Hp;
        (destruct source; [..|]; try reflexivity;
         first [by destruct (Hb b) | by destruct (Hs s) | by destruct (Hb b0)
               | by destruct (Hs s0)]).
    + unfold load_pkcs12.
      destruct password; try discriminate Hp;
        (destruct source; [..|]; try reflexivity;
         first [by destruct (Hb b) | by destruct (Hs s) | by destruct (Hb b0)
               | by destruct (Hs s0)]).
  - intros p e Hp. split.
    + intros b Hs He. unfold load_private_key.
      destruct source as [| |path| | | |]; try discriminate Hs; cbn in Hs.
      * injection Hs as ->. cbn [as_key_info]. unfold bind.
        rewrite Hp. cbv beta iota delta [ret lift]. rewrite He. reflexivity.
      * destruct (read_file path) as [b'|] eqn:Hr; [|discriminate Hs].
        injection Hs as ->. cbn [as_key_info]. unfold bind.
        rewrite Hp. cbv beta iota delta [ret lift]. rewrite He. reflexivity.
    + intros b Hs He. unfold load_pkcs12. unfold bind at 1. rewrite Hp.
      destruct source as [| |path| | | |]; try discriminate Hs; cbn in Hs.
      * injection Hs as ->. unfold bind at 1. unfold ret at 1.
        unfold bind at 1. unfold lift. rewrite He. reflexivity.
      * destruct (read_file path) as [b'|] eqn:Hr; [|discriminate Hs].
        injection Hs as ->. unfold bind at 1. unfold lift at 1. unfold ret at 1.
        unfold bind at 1. unfold lift. rewrite He. reflexivity.
  - intros Hb Hs Hc. unfold load_certificate.
    destruct source; try reflexivity;
      first [by destruct (Hb b) | by destruct (Hs s) | by destruct (Hc c)].
Qed.

End Embedding.

(** * Runs on a concrete framework *)

Open Scope list_scope.

(** A framework in which every call succeeds; a call that reads a boolean
    gets [b]. *)
Definition answers (b : bool) : nat -> call -> response :=
  fun _ _ => {| ok := true; out_bytes := []; out_bool := b |}.

(** Stand-ins for the padding primitive: one that encodes any message as
    itself, and a check that refuses a hash name outside the set. *)
Definition pad_any : string -> Z -> Z -> bytes -> result bytes :=
  fun _ _ _ d => Ok d.

Definition check_named : string -> Z -> Z -> bytes -> bytes -> result bool :=
  fun h _ _ _ _ =>
    if bool_decide (h ∈ hash_names) then Ok true
    else Raise (ValueError "hash_algorithm is not supported").

(** A check that finds every signature wrong. *)
Definition check_fails : string -> Z -> Z -> bytes -> bytes -> result bool :=
  fun _ _ _ _ _ => Ok false.

(** Stand-ins for the parsers, the file system and the string functions. *)
Definition no_certificate : bytes -> result CertInfo :=
  fun _ => Raise (ValueError "not a certificate").
Definition no_private : bytes -> option bytes -> result KeyInfo :=
  fun _ _ => Raise (ValueError "not a private key").
Definition no_public : bytes -> result KeyInfo :=
  fun _ => Raise (ValueError "not a public key").
Definition no_file : string -> result bytes := fun _ => Raise OSError.
Definition no_encoding : string -> bytes := fun _ => [].
Definition plain_repr : string -> string := fun s => s.

Definition rsa_public : KeyInfo :=
  {| key_class := PublicKeyInfo; algorithm := "rsa"; bit_size := 2048;
     byte_size := 256; hash_algo := None; curve := ("", None);
     dump := []; unwrap_dump := [] |}.

Definition rsa_private : KeyInfo :=
  {| key_class := PrivateKeyInfo; algorithm := "rsa"; bit_size := 2048;
     byte_size := 256; hash_algo := None; curve := ("", None);
     dump := []; unwrap_dump := [] |}.

Definition ec_specified : KeyInfo :=
  {| key_class := PublicKeyInfo; algorithm := "ec"; bit_size := 256;
     byte_size := 32; hash_algo := None; curve := ("specified", None);
     dump := []; unwrap_dump := [] |}.

Definition dsa_sha2 : KeyInfo :=
  {| key_class := PrivateKeyInfo; algorithm := "dsa"; bit_size := 3072;
     byte_size := 384; hash_algo := Some "sha2"; curve := ("", None);
     dump := []; unwrap_dump := [] |}.

Definition leaf : CertInfo :=
  {| cert_dump := []; subject_public_key_info := rsa_public |}.

(** A container with a leaf certificate, two more certificates and no
    key. *)
Definition certificates_only
  : bytes -> option bytes -> result (list KeyInfo * list CertInfo * list CertInfo) :=
  fun _ _ => Ok ([], [leaf], [leaf; leaf]).

Definition world0 : world :=
  {| heap := ∅; next_addr := 0; trace := []; clock := 0 |}.

(** The world after an RSA public key, an RSA private key and a
    certificate have been loaded, at the addresses 0, 1 and 2. *)
Definition keyring : world :=
  let w1 := (load_public_key (answers true) no_public no_file (PyKeyInfo rsa_public) frame0 world0).2 in
  let w2 := (load_private_key (answers true) no_private no_file no_encoding
               (PyKeyInfo rsa_private) PyNone frame0 w1).2 in
  (load_certificate (answers true) no_certificate no_file (PyCertInfo leaf) frame0 w2).2.

Lemma keyring_heap :
  heap keyring !! 0 = Some (PublicKey (Some 2) rsa_public)
  /\ heap keyring !! 1 = Some (PrivateKey (Some 7) rsa_private)
  /\ heap keyring !! 2 = Some (Certificate (Some 11) leaf None)
  /\ clock keyring = 13.
Proof. vm_compute. done. Qed.

(** ** The claims, run *)

(** The calls of a run, read off the trace it leaves. *)
Lemma new_calls (w : world) (tr new : list event) :
  tr = trace w ++ new -> new = drop (length (trace w)) tr.
Proof. intros ->. by rewrite drop_app_length. Qed.

Lemma unknown_hash_rejected_witness :
  ("sha3" ∉ hash_names)
  /\ refuses (_sign (answers true) plain_repr (PyObj 1) (PyBytes []) "sha3") frame0 keyring
  /\ exists msg,
       (rsa_pkcs1v15_verify (answers true) plain_repr
          (PyObj 2) (PyBytes []) (PyBytes []) "sha3" frame0 keyring).1.1
       = Raise (ValueError msg).
Proof.
  assert (H : "sha3" ∉ hash_names) by (apply (bool_decide_unpack _); vm_compute; exact I).
  split; [exact H|].
  destruct (unknown_hash_rejected (answers true) pad_any check_named plain_repr
              "sha3" (PyObj 1) (PyBytes []) (PyBytes []) frame0 keyring H)
    as (Hs & _ & _ & _ & Hc & _).
  split; [exact Hs|].
  destruct (Hc 2 rsa_public) as (_ & _ & _ & Hv & _);
    [vm_compute; reflexivity|vm_compute; lia|].
  destruct Hv as (new & Ht & _ & [[_ Hr]|[Hf _]]); [exact Hr|].
  exfalso. apply Hf. rewrite (new_calls _ _ _ Ht). vm_compute. reflexivity.
Defined.

(** [rsa_pss_verify] with an RSA public key and the hash name sha3: the
    raw encryption has run in the framework, from wrapping the signature to
    reading the result, before the name is refused. *)
Lemma unknown_hash_native_calls :
  ("sha3" ∉ hash_names)
  /\ exists new,
       trace (rsa_pss_verify (answers true) check_named
                (PyObj 0) (PyBytes []) (PyBytes []) "sha3" frame0 keyring).2
       = trace keyring ++ new
       /\ (rsa_pss_verify (answers true) check_named
             (PyObj 0) (PyBytes []) (PyBytes []) "sha3" frame0 keyring).1.1
          = Raise (ValueError "hash_algorithm is not supported")
       /\ map ev_call new =
          [cf_data_from_bytes [];
           SecEncryptTransformCreate (Some 2);
           SecTransformSetAttribute (Some 14) kSecPaddingKey (VConst kSecPaddingNoneKey);
           SecTransformSetAttribute (Some 14) kSecTransformInputAttributeName (VRef (Some 13));
           SecTransformExecute (Some 14);
           cf_data_to_bytes (Some 17);
           CFRelease 13;
           CFRelease 14].
Proof.
  split; [apply (bool_decide_unpack _); vm_compute; exact I|].
  eexists. split; [vm_compute; reflexivity|]. split; vm_compute; reflexivity.
Qed.


(** On the certificate of the keyring: [_verify] on a framework that
    answers [false] where the verdict is read, and [rsa_pss_verify] with a
    check that finds the signature wrong. *)
Lemma signature_invalid_is_distinct_witness :
  isinstance_Certificate_PublicKey (heap keyring) (PyObj 2) = true
  /\ key_info_of (heap keyring) 2 = Some rsa_public
  /\ 2 < next_addr keyring
  /\ (_verify (answers false) plain_repr (PyObj 2) (PyBytes []) (PyBytes []) "sha256"
        frame0 keyring).1.1
     = Raise (SignatureError "Signature is invalid")
  /\ (rsa_pss_verify (answers true) check_fails (PyObj 2) (PyBytes []) (PyBytes [])
        "sha256" frame0 keyring).1.1
     = Raise (SignatureError "Signature is invalid").
Proof.
  assert (Hi : isinstance_Certificate_PublicKey (heap keyring) (PyObj 2) = true)
    by (vm_compute; reflexivity).
  assert (Hk : key_info_of (heap keyring) 2 = Some rsa_public)
    by (vm_compute; reflexivity).
  assert (Ha : 2 < next_addr keyring) by (vm_compute; lia).
  split_and!; [exact Hi|exact Hk|exact Ha|..].
  - destruct (signature_invalid_is_distinct (answers false) check_fails plain_repr
                (PyObj 2) (PyBytes []) (PyBytes []) 2 rsa_public [] [] "sha256"
                frame0 keyring Hi Hk Ha) as (_ & Hv & _).
    destruct Hv as (new & Ht & [[Hf _]|(_ & v & Hv & Hr)]).
    + apply (bool_decide_unpack _). vm_compute. exact I.
    + exfalso. apply Hf. rewrite (new_calls _ _ _ Ht). vm_compute. reflexivity.
    + rewrite Hr. rewrite (new_calls _ _ _ Ht) in Hv. vm_compute in Hv.
      injection Hv as <-. reflexivity.
  - destruct (signature_invalid_is_distinct (answers true) check_fails plain_repr
                (PyObj 2) (PyBytes []) (PyBytes []) 2 rsa_public [] [] "sha256"
                frame0 keyring Hi Hk Ha) as (_ & _ & Hp).
    destruct (Hp eq_refl) as (new & Ht & [[Hf _]|(_ & pt & _ & Hr)]).
    + exfalso. apply Hf. rewrite (new_calls _ _ _ Ht). vm_compute. reflexivity.
    + exact Hr.
Defined.

(** [_encrypt] on a framework where every call succeeds: the wrapped data
    is made before the transform, and released before it. *)
Lemma cleanup_in_creation_order :
  exists new,
    trace (_encrypt (answers true) (PyObj 0) (PyBytes []) (Some kSecPaddingOAEPKey)
             frame0 keyring).2 = trace keyring ++ new
    /\ made new = [13; 14]
    /\ released new = [13; 14]
    /\ released new <> reverse (made new).
Proof.
  eexists. split; [vm_compute; reflexivity|]. by vm_compute.
Qed.

(** Signing with sha256 on the private key of the keyring: the digest
    type and the digest length have been set on the transform. *)
Lemma digest_mapping_witness :
  spec_digest "sha256" = Some (kSecDigestSHA2, Some 256%Z)
  /\ exists new,
       trace (_sign (answers true) plain_repr (PyObj 1) (PyBytes []) "sha256"
                frame0 keyring).2 = trace keyring ++ new
       /\ digest_done kSecDigestSHA2 (Some 256%Z) new.
Proof.
  split; [reflexivity|].
  destruct (digest_mapping (answers true) plain_repr (PyObj 1) (PyBytes []) (PyBytes [])
              1 0 rsa_private rsa_public [] [] "sha256" kSecDigestSHA2 (Some 256%Z)
              frame0 keyring eq_refl) as (_ & _ & _ & _ & _ & _ & Hs & _).
  destruct Hs as (new & Ht & [[Hf _]|(_ & Hd & _)]).
  - vm_compute. reflexivity.
  - vm_compute. reflexivity.
  - exfalso. apply Hf. rewrite (new_calls _ _ _ Ht). vm_compute. reflexivity.
  - exists new. split; [exact Ht|exact Hd].
Defined.

Lemma ec_curve_checked_witness :
  algorithm ec_specified = "ec"
  /\ exists msg,
       load_public_key (answers true) no_public no_file (PyKeyInfo ec_specified)
         frame0 world0
       = (Raise (PrivateKeyError msg), frame0, world0).
Proof.
  split; [reflexivity|].
  destruct (ec_curve_checked (answers true) no_private no_public certificates_only
              no_file no_encoding ec_specified eq_refl) as (_ & _ & H).
  destruct H as [msg H].
  - intros [Hn _]. discriminate Hn.
  - exists msg. destruct (H frame0 world0) as (_ & _ & _ & Hp & _).
    apply Hp. reflexivity.
Defined.

Lemma dsa_sha2_rejected_witness :
  algorithm dsa_sha2 = "dsa"
  /\ exists msg,
       load_private_key (answers true) no_private no_file no_encoding
         (PyKeyInfo dsa_sha2) PyNone frame0 world0
       = (Raise (PrivateKeyError msg), frame0, world0).
Proof.
  split; [reflexivity|].
  destruct (dsa_sha2_rejected (answers true) no_private no_public certificates_only
              no_file no_encoding dsa_sha2 eq_refl) as [H _].
  destruct (H eq_refl) as [msg Hr].
  exists msg. destruct (Hr frame0 world0) as (_ & Hp & _).
  apply Hp. reflexivity.
Defined.


Lemma load_public_key_unbound_witness :
  as_key_info PublicKeyInfo (PyInt 42) = None
  /\ load_public_key (answers true) no_public no_file (PyInt 42) frame0 world0
     = (Raise (UnboundLocalError "public_key"), frame0, world0).
Proof.
  split; [reflexivity|].
  apply load_public_key_unbound; [reflexivity|intros b; discriminate|intros s; discriminate].
Defined.

Lemma pkcs12_bundle_witness :
  exists cert extras w',
    load_pkcs12 (answers true) certificates_only no_file no_encoding
      (PyBytes []) PyNone frame0 world0
    = (Ok (None, cert, extras), frame0, w')
    /\ cert_slot (heap w') cert [leaf]
    /\ Forall2 (cert_at (heap w')) extras [leaf; leaf].
Proof.
  exact (pkcs12_bundle (answers true) certificates_only no_file no_encoding
           (PyBytes []) PyNone None [] [] [leaf] [leaf; leaf] frame0 world0
           eq_refl eq_refl eq_refl).
Defined.

(** ** Further properties, run *)

Lemma released_handle_passes_null_witness :
  heap keyring !! 0 = Some (PublicKey (Some 2) rsa_public)
  /\ heap keyring !! 1 = Some (PrivateKey (Some 7) rsa_private)
  /\ exists w1,
       release_handle (answers true) 0 frame0 keyring = (Ok tt, frame0, w1)
       /\ heap w1 !! 0 = Some (PublicKey None rsa_public)
       /\ exists new,
            trace (_encrypt (answers true) (PyObj 0) (PyBytes [])
                     (Some kSecPaddingOAEPKey) frame0 w1).2 = trace w1 ++ new
            /\ collect transform_call_of new = [SecEncryptTransformCreate None].
Proof.
  assert (Ha : heap keyring !! 0 = Some (PublicKey (Some 2) rsa_public))
    by (vm_compute; reflexivity).
  assert (Hb : heap keyring !! 1 = Some (PrivateKey (Some 7) rsa_private))
    by (vm_compute; reflexivity).
  split_and!; [exact Ha|exact Hb|].
  exact (proj1 (released_handle_passes_null (answers true) 0 1 (Some 2) rsa_public
                  (Some 7) rsa_private [] kSecPaddingOAEPKey frame0 keyring Ha Hb)).
Defined.

Lemma public_key_derived_once_witness :
  heap keyring !! 2 = Some (Certificate (Some 11) leaf None)
  /\ 2 < next_addr keyring
  /\ exists w1,
       Certificate_public_key (answers true) 2 frame0 keyring
       = (Ok (Some (next_addr keyring)), frame0, w1)
       /\ Certificate_public_key (answers true) 2 frame0 w1
          = (Ok (Some (next_addr keyring)), frame0, w1).
Proof.
  assert (Ha : heap keyring !! 2 = Some (Certificate (Some 11) leaf None))
    by (vm_compute; reflexivity).
  assert (Hlt : 2 < next_addr keyring) by (vm_compute; lia).
  split_and!; [exact Ha|exact Hlt|].
  destruct (public_key_derived_once (answers true) 2 11 leaf frame0 keyring Ha Hlt)
    as [Hok _].
  destruct (Hok eq_refl) as (w1 & H1 & _ & _ & H2).
  exists w1. split; [exact H1|exact H2].
Defined.

Lemma load_key_outcome_witness :
  (forall l w, check_key rsa_public l w = (Ok tt, l, w))
  /\ exists new,
       trace (_load_key (answers true) rsa_public frame0 world0).2 = trace world0 ++ new
       /\ released new = collect wrapped_of new
       /\ (_load_key (answers true) rsa_public frame0 world0).1.1 = Ok 0.
Proof.
  assert (H : forall l w, check_key rsa_public l w = (Ok tt, l, w))
    by (intros l w; reflexivity).
  split; [exact H|].
  destruct (load_key_outcome (answers true) rsa_public frame0 world0 H)
    as (new & Ht & Hr & _ & _).
  exists new. split_and!; [exact Ht|exact Hr|vm_compute; reflexivity].
Defined.

Lemma padding_for_rsa_only_witness :
  "sha1" ∈ hash_names
  /\ exists new,
       trace (_sign (answers true) plain_repr (PyObj 1) (PyBytes []) "sha1"
                frame0 keyring).2 = trace keyring ++ new
       /\ collect padding_of new = [VConst kSecPaddingPKCS1Key].
Proof.
  assert (H : "sha1" ∈ hash_names) by (apply (bool_decide_unpack _); vm_compute; exact I).
  split; [exact H|].
  destruct (padding_for_rsa_only (answers true) plain_repr 1 0 rsa_private rsa_public
              [] [] "sha1" frame0 keyring H) as [Hs _].
  destruct Hs as (new & Ht & Hp); [vm_compute; reflexivity|vm_compute; reflexivity|].
  exists new. split; [exact Ht|].
  apply Hp. rewrite (new_calls _ _ _ Ht). vm_compute. reflexivity.
Defined.

Lemma wrong_algorithm_refused_witness :
  isinstance_PrivateKey (heap keyring) (PyObj 1) = true
  /\ key_info_of (heap keyring) 1 = Some rsa_private
  /\ refuses (dsa_sign (answers true) plain_repr (PyObj 1) (PyBytes []) "sha1")
       frame0 keyring.
Proof.
  assert (Hi : isinstance_PrivateKey (heap keyring) (PyObj 1) = true)
    by (vm_compute; reflexivity).
  assert (Hk : key_info_of (heap keyring) 1 = Some rsa_private)
    by (vm_compute; reflexivity).
  split_and!; [exact Hi|exact Hk|].
  destruct (wrong_algorithm_refused (answers true) pad_any check_named plain_repr
              1 rsa_private (PyBytes []) (PyBytes []) "sha1" frame0 keyring Hi Hk)
    as (_ & Hd & _).
  apply Hd. discriminate.
Defined.
